(** * Command layer of the CDN command-line client

    A shallow embedding of five command implementations (FTP describe,
    Splunk / Datadog / Loggly list, VCL snippet update) together with the
    properties their specification states about them.

    Every command talks to collaborators whose code lies outside these
    five files: the service/version resolver [cmd.ServiceDetails], the remote
    API client, the error log, the JSON encoder, the table writer.  The
    collaborators are oracles ([Collaborators], [api.Interface]); every
    interaction with them is recorded, in program order, in a trace of
    [Event]s, so that "before any API call" or "recorded before Exec
    returns" become statements about that trace. *)

From Stdlib Require Import Ascii String ZArith List.
From stdpp Require Import base option list strings gmap pretty.

Local Open Scope Z_scope.
Local Open Scope string_scope.

(** ** Go values *)

(** The [interface{}] values the commands hand to [fmt], to the table
    writer and to the error log's context map: strings and integers. *)
Inductive any :=
| str (s : string)
| int (n : Z).

(** Go's [error] values: the sentinel of pkg/errors for the flag
    combination, the errors made by [fmt.Errorf], and whatever a
    collaborator reports. *)
Inductive error :=
| ErrInvalidVerboseJSONCombo
| errorString (msg : string)
| CollaboratorError (descr : string).

Definition LF : ascii := ascii_of_nat 10.
Definition TAB : ascii := ascii_of_nat 9.

(** A Go interpreted string literal, written here with the same escape
    sequences as in the Go source. *)
Fixpoint golit (s : string) : string :=
  match s with
  | EmptyString => EmptyString
  | String "\" (String "n" r) => String LF (golit r)
  | String "\" (String "t" r) => String TAB (golit r)
  | String c r => String c (golit r)
  end.

Module fmt.

Definition typename (a : any) : string :=
  match a with str _ => "string" | int _ => "int" end.

Definition plain (a : any) : string :=
  match a with str s => s | int n => pretty n end.

(** One verb applied to one operand; a verb that does not fit the
    operand prints Go's bad-verb marker. *)
Definition verb (v : ascii) (a : any) : string :=
  match v, a with
  | "s"%char, str s => s
  | "d"%char, int n => pretty n
  | "v"%char, _ => plain a
  | _, _ => "%!" +:+ String v ("(" +:+ typename a +:+ "=" +:+ plain a +:+ ")")
  end.

Fixpoint Sprintf (format : string) (a : list any) : string :=
  match format with
  | EmptyString => EmptyString
  | String "%" (String "%" r) => String "%" (Sprintf r a)
  | String "%" (String v r) =>
      match a with
      | x :: a' => verb v x +:+ Sprintf r a'
      | [] => "%!" +:+ String v ("(MISSING)" +:+ Sprintf r [])
      end
  | String c r => String c (Sprintf r a)
  end.

(** [fmt.Errorf], its format given as a Go literal. *)
Definition Errorf (format : string) (a : list any) : error :=
  errorString (Sprintf (golit format) a).

End fmt.

(** ** Types of the API client library *)

Module fastly.

Record Version := { Number : Z; Active : bool; Locked : bool }.

Module FTP.
Record t := {
  ServiceID : string; ServiceVersion : Z; Name : string;
  Address : string; Port : Z; Username : string; Password : string;
  PublicKey : string; Path : string; Period : Z; GzipLevel : Z;
  Format : string; FormatVersion : Z; ResponseCondition : string;
  TimestampFormat : string; Placement : string;
  CompressionCodec : string }.
End FTP.

Module Splunk.
Record t := {
  ServiceID : string; ServiceVersion : Z; Name : string;
  URL : string; Token : string; TLSCACert : string;
  TLSHostname : string; TLSClientCert : string; TLSClientKey : string;
  Format : string; FormatVersion : Z; ResponseCondition : string;
  Placement : string }.
End Splunk.

Module Datadog.
Record t := {
  ServiceID : string; ServiceVersion : Z; Name : string;
  Token : string; Region : string; Format : string;
  FormatVersion : Z; ResponseCondition : string; Placement : string }.
End Datadog.

Module Loggly.
Record t := {
  ServiceID : string; ServiceVersion : Z; Name : string;
  Token : string; Format : string; FormatVersion : Z;
  ResponseCondition : string; Placement : string }.
End Loggly.

(** The versioned snippet as the update reply shows it: the fields the
    success message reads. *)
Module Snippet.
Record t := {
  ServiceID : string; ServiceVersion : Z; Name : string;
  Type_ : string; Priority : Z }.
End Snippet.

Module DynamicSnippet.
Record t := { ServiceID : string; ID : string }.
End DynamicSnippet.

Module GetFTPInput.
Record t := { ServiceID : string; ServiceVersion : Z; Name : string }.
End GetFTPInput.

Module ListSplunksInput.
Record t := { ServiceID : string; ServiceVersion : Z }.
End ListSplunksInput.

Module ListDatadogInput.
Record t := { ServiceID : string; ServiceVersion : Z }.
End ListDatadogInput.

Module ListLogglyInput.
Record t := { ServiceID : string; ServiceVersion : Z }.
End ListLogglyInput.

(** Pointer fields ([*string], [*int], [*SnippetType]) are options:
    [None] is the nil pointer of a field that was never assigned. *)
Module UpdateSnippetInput.
Record t := {
  ServiceID : string; ServiceVersion : Z; Name : string;
  NewName : option string; Priority : option Z;
  Content : option string; Type_ : option string }.
(** [var input fastly.UpdateSnippetInput] *)
Definition zero : t :=
  {| ServiceID := ""; ServiceVersion := 0; Name := "";
     NewName := None; Priority := None; Content := None;
     Type_ := None |}.
(** Field assignments [input.F = v]. *)
Definition set_ServiceID (v : string) (i : t) : t :=
  {| ServiceID := v; ServiceVersion := ServiceVersion i; Name := Name i;
     NewName := NewName i; Priority := Priority i; Content := Content i;
     Type_ := Type_ i |}.
Definition set_ServiceVersion (v : Z) (i : t) : t :=
  {| ServiceID := ServiceID i; ServiceVersion := v; Name := Name i;
     NewName := NewName i; Priority := Priority i; Content := Content i;
     Type_ := Type_ i |}.
Definition set_Name (v : string) (i : t) : t :=
  {| ServiceID := ServiceID i; ServiceVersion := ServiceVersion i;
     Name := v; NewName := NewName i; Priority := Priority i;
     Content := Content i; Type_ := Type_ i |}.
Definition set_NewName (v : option string) (i : t) : t :=
  {| ServiceID := ServiceID i; ServiceVersion := ServiceVersion i;
     Name := Name i; NewName := v; Priority := Priority i;
     Content := Content i; Type_ := Type_ i |}.
Definition set_Priority (v : option Z) (i : t) : t :=
  {| ServiceID := ServiceID i; ServiceVersion := ServiceVersion i;
     Name := Name i; NewName := NewName i; Priority := v;
     Content := Content i; Type_ := Type_ i |}.
Definition set_Content (v : option string) (i : t) : t :=
  {| ServiceID := ServiceID i; ServiceVersion := ServiceVersion i;
     Name := Name i; NewName := NewName i; Priority := Priority i;
     Content := v; Type_ := Type_ i |}.
Definition set_Type (v : option string) (i : t) : t :=
  {| ServiceID := ServiceID i; ServiceVersion := ServiceVersion i;
     Name := Name i; NewName := NewName i; Priority := Priority i;
     Content := Content i; Type_ := v |}.
End UpdateSnippetInput.

Module UpdateDynamicSnippetInput.
Record t := { ServiceID : string; ID : string; Content : option string }.
(** [var input fastly.UpdateDynamicSnippetInput] *)
Definition zero : t := {| ServiceID := ""; ID := ""; Content := None |}.
(** Field assignments [input.F = v]. *)
Definition set_ServiceID (v : string) (i : t) : t :=
  {| ServiceID := v; ID := ID i; Content := Content i |}.
Definition set_ID (v : string) (i : t) : t :=
  {| ServiceID := ServiceID i; ID := v; Content := Content i |}.
Definition set_Content (v : option string) (i : t) : t :=
  {| ServiceID := ServiceID i; ID := ID i; Content := v |}.
End UpdateDynamicSnippetInput.

(** [fastly.String], [fastly.Int]: a pointer to the value. *)
Definition String (s : string) : option string := Some s.
Definition Int (n : Z) : option Z := Some n.
(** The conversion [fastly.SnippetType(s)] of a string-based type. *)
Definition SnippetType (s : string) : string := s.

End fastly.

(** The remote API, as much of it as the five commands call.  A Go method
    returning a pointer and an error answers with [inl] a value or [inr] an error. *)
Module api.
Record Interface := {
  GetFTP : fastly.GetFTPInput.t -> fastly.FTP.t + error;
  ListSplunks : fastly.ListSplunksInput.t -> list fastly.Splunk.t + error;
  ListDatadog : fastly.ListDatadogInput.t -> list fastly.Datadog.t + error;
  ListLoggly : fastly.ListLogglyInput.t -> list fastly.Loggly.t + error;
  UpdateSnippet :
    fastly.UpdateSnippetInput.t -> fastly.Snippet.t + error;
  UpdateDynamicSnippet :
    fastly.UpdateDynamicSnippetInput.t -> fastly.DynamicSnippet.t + error }.

(** A request as it appears in the trace. *)
Inductive Request :=
| ReqGetFTP (i : fastly.GetFTPInput.t)
| ReqListSplunks (i : fastly.ListSplunksInput.t)
| ReqListDatadog (i : fastly.ListDatadogInput.t)
| ReqListLoggly (i : fastly.ListLogglyInput.t)
| ReqUpdateSnippet (i : fastly.UpdateSnippetInput.t)
| ReqUpdateDynamicSnippet (i : fastly.UpdateDynamicSnippetInput.t).

(** A reply of the client: the value a successful call hands back. *)
Inductive Response :=
| RespFTP (v : fastly.FTP.t)
| RespSplunks (v : list fastly.Splunk.t)
| RespDatadogs (v : list fastly.Datadog.t)
| RespLogglys (v : list fastly.Loggly.t)
| RespSnippet (v : fastly.Snippet.t)
| RespDynamicSnippet (v : fastly.DynamicSnippet.t).

(** How the client answers a request. *)
Definition respond (a : Interface) (r : Request) : Response + error :=
  match r with
  | ReqGetFTP i => sum_map RespFTP id (GetFTP a i)
  | ReqListSplunks i => sum_map RespSplunks id (ListSplunks a i)
  | ReqListDatadog i => sum_map RespDatadogs id (ListDatadog a i)
  | ReqListLoggly i => sum_map RespLogglys id (ListLoggly a i)
  | ReqUpdateSnippet i => sum_map RespSnippet id (UpdateSnippet a i)
  | ReqUpdateDynamicSnippet i =>
      sum_map RespDynamicSnippet id (UpdateDynamicSnippet a i)
  end.

(** The service version a request names, where it names one. *)
Definition version_of (r : Request) : option Z :=
  match r with
  | ReqGetFTP i => Some (fastly.GetFTPInput.ServiceVersion i)
  | ReqListSplunks i => Some (fastly.ListSplunksInput.ServiceVersion i)
  | ReqListDatadog i => Some (fastly.ListDatadogInput.ServiceVersion i)
  | ReqListLoggly i => Some (fastly.ListLogglyInput.ServiceVersion i)
  | ReqUpdateSnippet i => Some (fastly.UpdateSnippetInput.ServiceVersion i)
  | ReqUpdateDynamicSnippet _ => None
  end.
End api.

Module manifest.
Record Flag := { ServiceID : string }.
Record Data := { Flag_ : Flag }.
End manifest.

Module config.
Record Flag := { Verbose_ : bool }.
Record Data := { Flag_ : Flag; APIClient : api.Interface }.

(** Modelled from the spec: the accessor [Verbose()] of [config.Data]
    lives in pkg/config, outside the five command files; the commands use
    it for the verbosity selected by the global --verbose flag. *)
Definition Verbose (d : Data) : bool := Verbose_ (Flag_ d).
End config.

(** ** Flags and the service/version resolver (package cmd) *)

Module cmd.

(** A flag value together with whether the flag was given at all. *)
Record Optional (A : Type) := { WasSet : bool; Value : A }.
Arguments WasSet {A} _.
Arguments Value {A} _.

Definition OptionalString := Optional string.
Definition OptionalBool := Optional bool.
Definition OptionalInt := Optional Z.
Definition OptionalAutoClone := OptionalBool.
Definition OptionalServiceNameID := OptionalString.
Definition OptionalServiceVersion := OptionalString.

(** The zero value of an optional flag. *)
Definition unset {A} (zero : A) : Optional A :=
  {| WasSet := false; Value := zero |}.

(** The options of the resolver.  The two remaining fields of the Go
    struct, [APIClient] and [Out], are the resolver's own channels to
    the API and to the terminal; they belong to the resolver oracle. *)
Record ServiceDetailsOpts := {
  AllowActiveLocked : bool;
  AutoCloneFlag : OptionalAutoClone;
  Manifest : manifest.Data;
  ServiceNameFlag : OptionalServiceNameID;
  ServiceVersionFlag : OptionalServiceVersion;
  VerboseMode : bool }.

(** What the resolver hands back: on success the service ID and a
    version; on failure an error, the service ID found so far and a
    version pointer that may be nil. *)
Inductive ServiceDetailsResult :=
| Resolved (serviceID : string) (serviceVersion : fastly.Version)
| ResolveFailed (serviceID : string)
    (serviceVersion : option fastly.Version) (err : error).

End cmd.

(** Package-level functions the commands call and whose code lies
    outside the five command files; one run of a command sees one such
    environment (the remote service and the local disk included). *)
Class Collaborators := {
  (** what [cmd.ServiceDetails] answers *)
  cmd_ServiceDetails_answer :
    cmd.ServiceDetailsOpts -> cmd.ServiceDetailsResult;
  (** [errors.ServiceVersion], applied to the possibly nil version *)
  errors_ServiceVersion : option fastly.Version -> any;
  (** [json.Marshal], applied to what the API client handed back *)
  json_Marshal : api.Response -> string + error;
  (** [cmd.Content]: the text a --content flag value stands for *)
  cmd_Content : string -> string }.

(** ** Traces and the command monad *)

Inductive Event :=
| CallServiceDetails (opts : cmd.ServiceDetailsOpts)
| CallAPI (r : api.Request)
| ErrLogAdd (err : error)
| ErrLogAddWithContext (err : error) (ctx : gmap string any)
| Write (s : string)
| TableAddHeader (cells : list any)
| TableAddLine (cells : list any)
| TablePrint
| Success (msg : string).

(** A statement either falls through to the next one with a value, or
    returns from [Exec] with Go's [error] ([None] is [nil]). *)
Inductive Outcome (A : Type) :=
| Next (a : A)
| Return (err : option error).
Arguments Next {A} a.
Arguments Return {A} err.

Definition M (A : Type) : Type := Outcome A * list Event.

Global Instance M_ret : MRet M := fun A a => (Next a, []).

(** Sequencing: after a [Return] nothing more happens. *)
Global Instance M_bind : MBind M := fun A B f m =>
  match fst m with
  | Next a => (fst (f a), (snd m ++ snd (f a))%list)
  | Return e => (Return e, snd m)
  end.

Definition emit (ev : Event) : M unit := (Next tt, [ev]).

(** [return err] / [return nil] *)
Definition return_ {A} (err : option error) : M A := (Return err, []).

(** The error [Exec] returns and everything that happened on the way. *)
Definition run (m : M unit) : option error * list Event :=
  (match fst m with Next _ => None | Return e => e end, snd m).

(** [for i, x := range l { body }] *)
Fixpoint for_range_from {A} (i : nat) (l : list A)
    (body : nat -> A -> M unit) : M unit :=
  match l with
  | [] => mret tt
  | x :: l' => body i x;; for_range_from (S i) l' body
  end.

Definition for_range {A} (l : list A) (body : nat -> A -> M unit) : M unit :=
  for_range_from 0 l body.

(** Writes to [out]. *)
Definition Fprint (s : string) : M unit := emit (Write s).
Definition Fprintf (format : string) (a : list any) : M unit :=
  emit (Write (fmt.Sprintf (golit format) a)).
Definition Fprintln : M unit := emit (Write (String LF "")).

Definition when_ (b : bool) (m : M unit) : M unit :=
  if b then m else mret tt.

(** ** Calls to the collaborators *)

Section Resolver.
Context `{Collaborators}.

(** The call [cmd.ServiceDetails(opts)]. *)
Definition cmd_ServiceDetails (opts : cmd.ServiceDetailsOpts)
  : M cmd.ServiceDetailsResult :=
  emit (CallServiceDetails opts);; mret (cmd_ServiceDetails_answer opts).
End Resolver.

(** The methods of [c.Globals.APIClient]. *)
Module APIClient.
Definition call {T} (r : api.Request) (answer : T + error) : M (T + error) :=
  emit (CallAPI r);; mret answer.

Definition GetFTP (g : config.Data) i :=
  call (api.ReqGetFTP i) (api.GetFTP (config.APIClient g) i).
Definition ListSplunks (g : config.Data) i :=
  call (api.ReqListSplunks i) (api.ListSplunks (config.APIClient g) i).
Definition ListDatadog (g : config.Data) i :=
  call (api.ReqListDatadog i) (api.ListDatadog (config.APIClient g) i).
Definition ListLoggly (g : config.Data) i :=
  call (api.ReqListLoggly i) (api.ListLoggly (config.APIClient g) i).
Definition UpdateSnippet (g : config.Data) i :=
  call (api.ReqUpdateSnippet i) (api.UpdateSnippet (config.APIClient g) i).
Definition UpdateDynamicSnippet (g : config.Data) i :=
  call (api.ReqUpdateDynamicSnippet i)
       (api.UpdateDynamicSnippet (config.APIClient g) i).
End APIClient.

(** The methods of [c.Globals.ErrLog]. *)
Module ErrLog.
Definition Add (err : error) : M unit := emit (ErrLogAdd err).
Definition AddWithContext (err : error) (ctx : gmap string any) : M unit :=
  emit (ErrLogAddWithContext err ctx).
End ErrLog.

(** Package text: the table writer and the success message.  The rows of
    a table reach the trace one by one, in the order they are added. *)
Module text.
Definition NewTable : M unit := mret tt.
Definition AddHeader (cells : list any) : M unit := emit (TableAddHeader cells).
Definition AddLine (cells : list any) : M unit := emit (TableAddLine cells).
Definition Print : M unit := emit TablePrint.
Definition Success (format : string) (a : list any) : M unit :=
  emit (Success (fmt.Sprintf (golit format) a)).
End text.

(** ** The commands *)

Module ftp.

Record DescribeCommand := {
  Globals : config.Data;
  manifest : manifest.Data;
  Input : fastly.GetFTPInput.t;
  json : bool;
  serviceName : cmd.OptionalServiceNameID;
  serviceVersion : cmd.OptionalServiceVersion }.

Section Exec.
Context `{Collaborators}.
Import fastly.FTP.

Definition Exec (c : DescribeCommand) : M unit :=
  when_ (config.Verbose (Globals c) && json c)
    (return_ (Some ErrInvalidVerboseJSONCombo));;
  r ← cmd_ServiceDetails {|
    cmd.AllowActiveLocked := true;
    cmd.AutoCloneFlag := cmd.unset false;
    cmd.Manifest := manifest c;
    cmd.ServiceNameFlag := serviceName c;
    cmd.ServiceVersionFlag := serviceVersion c;
    cmd.VerboseMode := config.Verbose_ (config.Flag_ (Globals c)) |};
  match r with
  | cmd.ResolveFailed serviceID serviceVersion err =>
      ErrLog.AddWithContext err {[
        "Service ID" := str serviceID;
        "Service Version" := errors_ServiceVersion serviceVersion ]};;
      return_ (Some err)
  | cmd.Resolved serviceID serviceVersion =>
      let Input := {|
        fastly.GetFTPInput.ServiceID := serviceID;
        fastly.GetFTPInput.ServiceVersion := fastly.Number serviceVersion;
        fastly.GetFTPInput.Name := fastly.GetFTPInput.Name (Input c) |} in
      r ← APIClient.GetFTP (Globals c) Input;
      match r with
      | inr err => ErrLog.Add err;; return_ (Some err)
      | inl ftp =>
          when_ (json c)
            match json_Marshal (api.RespFTP ftp) with
            | inr err => return_ (Some err)
            | inl data => Fprint data;; return_ None
            end;;
          when_ (negb (config.Verbose (Globals c)))
            (Fprintf "\nService ID: %s\n" [str (ServiceID ftp)]);;
          Fprintf "Version: %d\n" [int (ServiceVersion ftp)];;
          Fprintf "Name: %s\n" [str (Name ftp)];;
          Fprintf "Address: %s\n" [str (Address ftp)];;
          Fprintf "Port: %d\n" [int (Port ftp)];;
          Fprintf "Username: %s\n" [str (Username ftp)];;
          Fprintf "Password: %s\n" [str (Password ftp)];;
          Fprintf "Public key: %s\n" [str (PublicKey ftp)];;
          Fprintf "Path: %s\n" [str (Path ftp)];;
          Fprintf "Period: %d\n" [int (Period ftp)];;
          Fprintf "GZip level: %d\n" [int (GzipLevel ftp)];;
          Fprintf "Format: %s\n" [str (Format ftp)];;
          Fprintf "Format version: %d\n" [int (FormatVersion ftp)];;
          Fprintf "Response condition: %s\n" [str (ResponseCondition ftp)];;
          Fprintf "Timestamp format: %s\n" [str (TimestampFormat ftp)];;
          Fprintf "Placement: %s\n" [str (Placement ftp)];;
          Fprintf "Compression codec: %s\n" [str (CompressionCodec ftp)];;
          return_ None
      end
  end.
End Exec.

End ftp.

Module splunk.

Record ListCommand := {
  Globals : config.Data;
  manifest : manifest.Data;
  Input : fastly.ListSplunksInput.t;
  json : bool;
  serviceName : cmd.OptionalServiceNameID;
  serviceVersion : cmd.OptionalServiceVersion }.

Section Exec.
Context `{Collaborators}.
Import fastly.Splunk.

Definition Exec (c : ListCommand) : M unit :=
  when_ (config.Verbose (Globals c) && json c)
    (return_ (Some ErrInvalidVerboseJSONCombo));;
  r ← cmd_ServiceDetails {|
    cmd.AllowActiveLocked := true;
    cmd.AutoCloneFlag := cmd.unset false;
    cmd.Manifest := manifest c;
    cmd.ServiceNameFlag := serviceName c;
    cmd.ServiceVersionFlag := serviceVersion c;
    cmd.VerboseMode := config.Verbose_ (config.Flag_ (Globals c)) |};
  match r with
  | cmd.ResolveFailed serviceID serviceVersion err =>
      ErrLog.AddWithContext err {[
        "Service ID" := str serviceID;
        "Service Version" := errors_ServiceVersion serviceVersion ]};;
      return_ (Some err)
  | cmd.Resolved serviceID serviceVersion =>
      let Input := {|
        fastly.ListSplunksInput.ServiceID := serviceID;
        fastly.ListSplunksInput.ServiceVersion :=
          fastly.Number serviceVersion |} in
      r ← APIClient.ListSplunks (Globals c) Input;
      match r with
      | inr err => ErrLog.Add err;; return_ (Some err)
      | inl splunks =>
          when_ (negb (config.Verbose (Globals c)))
            (when_ (json c)
               match json_Marshal (api.RespSplunks splunks) with
               | inr err => return_ (Some err)
               | inl data => Fprint data;; return_ None
               end;;
             text.NewTable;;
             text.AddHeader [str "SERVICE"; str "VERSION"; str "NAME"];;
             for_range splunks (fun _ splunk =>
               text.AddLine [str (ServiceID splunk);
                             int (ServiceVersion splunk);
                             str (Name splunk)]);;
             text.Print;;
             return_ None);;
          Fprintf "Version: %d\n"
            [int (fastly.ListSplunksInput.ServiceVersion Input)];;
          for_range splunks (fun i splunk =>
            Fprintf "\tSplunk %d/%d\n"
              [int (Z.of_nat i + 1); int (Z.of_nat (length splunks))];;
            Fprintf "\t\tService ID: %s\n" [str (ServiceID splunk)];;
            Fprintf "\t\tVersion: %d\n" [int (ServiceVersion splunk)];;
            Fprintf "\t\tName: %s\n" [str (Name splunk)];;
            Fprintf "\t\tURL: %s\n" [str (URL splunk)];;
            Fprintf "\t\tToken: %s\n" [str (Token splunk)];;
            Fprintf "\t\tTLS CA certificate: %s\n" [str (TLSCACert splunk)];;
            Fprintf "\t\tTLS hostname: %s\n" [str (TLSHostname splunk)];;
            Fprintf "\t\tTLS client certificate: %s\n"
              [str (TLSClientCert splunk)];;
            Fprintf "\t\tTLS client key: %s\n" [str (TLSClientKey splunk)];;
            Fprintf "\t\tFormat: %s\n" [str (Format splunk)];;
            Fprintf "\t\tFormat version: %d\n" [int (FormatVersion splunk)];;
            Fprintf "\t\tResponse condition: %s\n"
              [str (ResponseCondition splunk)];;
            Fprintf "\t\tPlacement: %s\n" [str (Placement splunk)]);;
          Fprintln;;
          return_ None
      end
  end.
End Exec.

End splunk.

Module datadog.

Record ListCommand := {
  Globals : config.Data;
  manifest : manifest.Data;
  Input : fastly.ListDatadogInput.t;
  json : bool;
  serviceName : cmd.OptionalServiceNameID;
  serviceVersion : cmd.OptionalServiceVersion }.

Section Exec.
Context `{Collaborators}.
Import fastly.Datadog.

Definition Exec (c : ListCommand) : M unit :=
  when_ (config.Verbose (Globals c) && json c)
    (return_ (Some ErrInvalidVerboseJSONCombo));;
  r ← cmd_ServiceDetails {|
    cmd.AllowActiveLocked := true;
    cmd.AutoCloneFlag := cmd.unset false;
    cmd.Manifest := manifest c;
    cmd.ServiceNameFlag := serviceName c;
    cmd.ServiceVersionFlag := serviceVersion c;
    cmd.VerboseMode := config.Verbose_ (config.Flag_ (Globals c)) |};
  match r with
  | cmd.ResolveFailed serviceID serviceVersion err =>
      ErrLog.AddWithContext err {[
        "Service ID" := str serviceID;
        "Service Version" := errors_ServiceVersion serviceVersion ]};;
      return_ (Some err)
  | cmd.Resolved serviceID serviceVersion =>
      let Input := {|
        fastly.ListDatadogInput.ServiceID := serviceID;
        fastly.ListDatadogInput.ServiceVersion :=
          fastly.Number serviceVersion |} in
      r ← APIClient.ListDatadog (Globals c) Input;
      match r with
      | inr err => ErrLog.Add err;; return_ (Some err)
      | inl datadogs =>
          when_ (negb (config.Verbose (Globals c)))
            (when_ (json c)
               match json_Marshal (api.RespDatadogs datadogs) with
               | inr err => return_ (Some err)
               | inl data => Fprint data;; return_ None
               end;;
             text.NewTable;;
             text.AddHeader [str "SERVICE"; str "VERSION"; str "NAME"];;
             for_range datadogs (fun _ datadog =>
               text.AddLine [str (ServiceID datadog);
                             int (ServiceVersion datadog);
                             str (Name datadog)]);;
             text.Print;;
             return_ None);;
          Fprintf "Version: %d\n"
            [int (fastly.ListDatadogInput.ServiceVersion Input)];;
          for_range datadogs (fun i datadog =>
            Fprintf "\tDatadog %d/%d\n"
              [int (Z.of_nat i + 1); int (Z.of_nat (length datadogs))];;
            Fprintf "\t\tService ID: %s\n" [str (ServiceID datadog)];;
            Fprintf "\t\tVersion: %d\n" [int (ServiceVersion datadog)];;
            Fprintf "\t\tName: %s\n" [str (Name datadog)];;
            Fprintf "\t\tToken: %s\n" [str (Token datadog)];;
            Fprintf "\t\tRegion: %s\n" [str (Region datadog)];;
            Fprintf "\t\tFormat: %s\n" [str (Format datadog)];;
            Fprintf "\t\tFormat version: %d\n" [int (FormatVersion datadog)];;
            Fprintf "\t\tResponse condition: %s\n"
              [str (ResponseCondition datadog)];;
            Fprintf "\t\tPlacement: %s\n" [str (Placement datadog)]);;
          Fprintln;;
          return_ None
      end
  end.
End Exec.

End datadog.

Module loggly.

Record ListCommand := {
  Globals : config.Data;
  manifest : manifest.Data;
  Input : fastly.ListLogglyInput.t;
  json : bool;
  serviceName : cmd.OptionalServiceNameID;
  serviceVersion : cmd.OptionalServiceVersion }.

Section Exec.
Context `{Collaborators}.
Import fastly.Loggly.

Definition Exec (c : ListCommand) : M unit :=
  when_ (config.Verbose (Globals c) && json c)
    (return_ (Some ErrInvalidVerboseJSONCombo));;
  r ← cmd_ServiceDetails {|
    cmd.AllowActiveLocked := true;
    cmd.AutoCloneFlag := cmd.unset false;
    cmd.Manifest := manifest c;
    cmd.ServiceNameFlag := serviceName c;
    cmd.ServiceVersionFlag := serviceVersion c;
    cmd.VerboseMode := config.Verbose_ (config.Flag_ (Globals c)) |};
  match r with
  | cmd.ResolveFailed serviceID serviceVersion err =>
      ErrLog.AddWithContext err {[
        "Service ID" := str serviceID;
        "Service Version" := errors_ServiceVersion serviceVersion ]};;
      return_ (Some err)
  | cmd.Resolved serviceID serviceVersion =>
      let Input := {|
        fastly.ListLogglyInput.ServiceID := serviceID;
        fastly.ListLogglyInput.ServiceVersion :=
          fastly.Number serviceVersion |} in
      r ← APIClient.ListLoggly (Globals c) Input;
      match r with
      | inr err => ErrLog.Add err;; return_ (Some err)
      | inl logglys =>
          when_ (negb (config.Verbose (Globals c)))
            (when_ (json c)
               match json_Marshal (api.RespLogglys logglys) with
               | inr err => return_ (Some err)
               | inl data => Fprint data;; return_ None
               end;;
             text.NewTable;;
             text.AddHeader [str "SERVICE"; str "VERSION"; str "NAME"];;
             for_range logglys (fun _ loggly =>
               text.AddLine [str (ServiceID loggly);
                             int (ServiceVersion loggly);
                             str (Name loggly)]);;
             text.Print;;
             return_ None);;
          Fprintf "Version: %d\n"
            [int (fastly.ListLogglyInput.ServiceVersion Input)];;
          for_range logglys (fun i loggly =>
            Fprintf "\tLoggly %d/%d\n"
              [int (Z.of_nat i + 1); int (Z.of_nat (length logglys))];;
            Fprintf "\t\tService ID: %s\n" [str (ServiceID loggly)];;
            Fprintf "\t\tVersion: %d\n" [int (ServiceVersion loggly)];;
            Fprintf "\t\tName: %s\n" [str (Name loggly)];;
            Fprintf "\t\tToken: %s\n" [str (Token loggly)];;
            Fprintf "\t\tFormat: %s\n" [str (Format loggly)];;
            Fprintf "\t\tFormat version: %d\n" [int (FormatVersion loggly)];;
            Fprintf "\t\tResponse condition: %s\n"
              [str (ResponseCondition loggly)];;
            Fprintf "\t\tPlacement: %s\n" [str (Placement loggly)]);;
          Fprintln;;
          return_ None
      end
  end.
End Exec.

End loggly.

Module snippet.

Record UpdateCommand := {
  Globals : config.Data;
  autoClone : cmd.OptionalAutoClone;
  content : cmd.OptionalString;
  dynamic : cmd.OptionalBool;
  location : cmd.OptionalString;
  manifest : manifest.Data;
  name : string;
  newName : cmd.OptionalString;
  priority : cmd.OptionalInt;
  serviceName : cmd.OptionalServiceNameID;
  serviceVersion : cmd.OptionalServiceVersion;
  snippetID : string }.

Section Exec.
Context `{Collaborators}.

(** constructDynamicInput transforms values parsed from CLI flags into
    an object to be used by the API client library. *)
Definition constructDynamicInput (c : UpdateCommand)
    (serviceID : string) (serviceVersion : Z)
  : fastly.UpdateDynamicSnippetInput.t + error :=
  let input := fastly.UpdateDynamicSnippetInput.zero in
  let input := fastly.UpdateDynamicSnippetInput.set_ID (snippetID c) input in
  let input :=
    fastly.UpdateDynamicSnippetInput.set_ServiceID serviceID input in
  if cmd.WasSet (newName c) then
    inr (fmt.Errorf "error parsing arguments: --new-name is not supported when updating a dynamic VCL snippet" [])
  else if String.eqb (snippetID c) "" then
    inr (fmt.Errorf "error parsing arguments: must provide --snippet-id to update a dynamic VCL snippet" [])
  else
    let input :=
      if cmd.WasSet (content c)
      then fastly.UpdateDynamicSnippetInput.set_Content
             (fastly.String (cmd_Content (cmd.Value (content c)))) input
      else input in
    inl input.

(** constructInput transforms values parsed from CLI flags into an
    object to be used by the API client library. *)
Definition constructInput (c : UpdateCommand)
    (serviceID : string) (serviceVersion : Z)
  : fastly.UpdateSnippetInput.t + error :=
  let input := fastly.UpdateSnippetInput.zero in
  let input := fastly.UpdateSnippetInput.set_Name (name c) input in
  let input := fastly.UpdateSnippetInput.set_ServiceID serviceID input in
  let input :=
    fastly.UpdateSnippetInput.set_ServiceVersion serviceVersion input in
  if negb (String.eqb (snippetID c) "") then
    inr (fmt.Errorf "error parsing arguments: --snippet-id is not supported when updating a versioned VCL snippet" [])
  else if String.eqb (name c) "" then
    inr (fmt.Errorf "error parsing arguments: must provide --name to update a versioned VCL snippet" [])
  else
    let input :=
      if cmd.WasSet (newName c)
      then fastly.UpdateSnippetInput.set_NewName
             (fastly.String (cmd.Value (newName c))) input
      else input in
    let input :=
      if cmd.WasSet (priority c)
      then fastly.UpdateSnippetInput.set_Priority
             (fastly.Int (cmd.Value (priority c))) input
      else input in
    let input :=
      if cmd.WasSet (content c)
      then fastly.UpdateSnippetInput.set_Content
             (fastly.String (cmd_Content (cmd.Value (content c)))) input
      else input in
    let input :=
      if cmd.WasSet (location c)
      then
        let location := fastly.SnippetType (cmd.Value (location c)) in
        fastly.UpdateSnippetInput.set_Type (Some location) input
      else input in
    inl input.

Definition Exec (c : UpdateCommand) : M unit :=
  r ← cmd_ServiceDetails {|
    cmd.AllowActiveLocked := false;
    cmd.AutoCloneFlag := autoClone c;
    cmd.Manifest := manifest c;
    cmd.ServiceNameFlag := serviceName c;
    cmd.ServiceVersionFlag := serviceVersion c;
    cmd.VerboseMode := config.Verbose_ (config.Flag_ (Globals c)) |};
  match r with
  | cmd.ResolveFailed serviceID serviceVersion err =>
      ErrLog.AddWithContext err {[
        "Service ID" := str serviceID;
        "Service Version" := errors_ServiceVersion serviceVersion ]};;
      return_ (Some err)
  | cmd.Resolved serviceID serviceVersion =>
      when_ (cmd.WasSet (dynamic c))
        match constructDynamicInput c serviceID
                (fastly.Number serviceVersion) with
        | inr err =>
            ErrLog.AddWithContext err {[
              "Service ID" := str serviceID;
              "Service Version" := int (fastly.Number serviceVersion) ]};;
            return_ (Some err)
        | inl input =>
            r ← APIClient.UpdateDynamicSnippet (Globals c) input;
            match r with
            | inr err =>
                ErrLog.AddWithContext err {[
                  "Service ID" := str serviceID;
                  "Service Version" :=
                    int (fastly.Number serviceVersion) ]};;
                return_ (Some err)
            | inl v =>
                text.Success
                  "Updated dynamic VCL snippet '%s' (service: %s)"
                  [str (fastly.DynamicSnippet.ID v);
                   str (fastly.DynamicSnippet.ServiceID v)];;
                return_ None
            end
        end;;
      match constructInput c serviceID (fastly.Number serviceVersion) with
      | inr err =>
          ErrLog.AddWithContext err {[
            "Service ID" := str serviceID;
            "Service Version" := int (fastly.Number serviceVersion) ]};;
          return_ (Some err)
      | inl input =>
          r ← APIClient.UpdateSnippet (Globals c) input;
          match r with
          | inr err =>
              ErrLog.AddWithContext err {[
                "Service ID" := str serviceID;
                "Service Version" := int (fastly.Number serviceVersion) ]};;
              return_ (Some err)
          | inl v =>
              text.Success
                "Updated VCL snippet '%s' (previously: '%s', service: %s, version: %d, type: %v, priority: %d)"
                [str (fastly.Snippet.Name v);
                 str (fastly.UpdateSnippetInput.Name input);
                 str (fastly.Snippet.ServiceID v);
                 int (fastly.Snippet.ServiceVersion v);
                 str (fastly.Snippet.Type_ v);
                 int (fastly.Snippet.Priority v)];;
              return_ None
          end
      end
  end.
End Exec.

End snippet.

(** ** Any command *)

(** The commands behind the common [Exec] entry point. *)
Inductive Command :=
| FTPDescribe (c : ftp.DescribeCommand)
| SplunkList (c : splunk.ListCommand)
| DatadogList (c : datadog.ListCommand)
| LogglyList (c : loggly.ListCommand)
| SnippetUpdate (c : snippet.UpdateCommand).

Definition Exec `{Collaborators} (c : Command) : M unit :=
  match c with
  | FTPDescribe c => ftp.Exec c
  | SplunkList c => splunk.Exec c
  | DatadogList c => datadog.Exec c
  | LogglyList c => loggly.Exec c
  | SnippetUpdate c => snippet.Exec c
  end.

Definition Globals (c : Command) : config.Data :=
  match c with
  | FTPDescribe c => ftp.Globals c
  | SplunkList c => splunk.Globals c
  | DatadogList c => datadog.Globals c
  | LogglyList c => loggly.Globals c
  | SnippetUpdate c => snippet.Globals c
  end.

(** Whether --json was given.  The snippet update command registers no
    such flag and has no [json] field, so there it cannot be. *)
Definition json_set (c : Command) : bool :=
  match c with
  | FTPDescribe c => ftp.json c
  | SplunkList c => splunk.json c
  | DatadogList c => datadog.json c
  | LogglyList c => loggly.json c
  | SnippetUpdate _ => false
  end.

(** The read-only commands. *)
Definition read_only (c : Command) : bool :=
  match c with
  | SnippetUpdate _ => false
  | _ => true
  end.


(** ** Observations on a run *)

Section Observations.
Context `{Collaborators}.

(** The error [Exec] returns ([None]: the command succeeded). *)
Definition result (c : Command) : option error := fst (run (Exec c)).

(** Everything [Exec] did, in order. *)
Definition trace (c : Command) : list Event := snd (run (Exec c)).
End Observations.

Definition is_resolver_call (ev : Event) : bool :=
  match ev with CallServiceDetails _ => true | _ => false end.

Definition is_api_call (ev : Event) : bool :=
  match ev with CallAPI _ => true | _ => false end.

(** ** The three renderings of a listing *)

Definition nl : string := String LF "".
Definition tab : string := String TAB "".


(** One table line per endpoint: service, version, name. *)
Definition table_rows (r : api.Response) : list (list any) :=
  match r with
  | api.RespSplunks l =>
      (fun x => [str (fastly.Splunk.ServiceID x);
                 int (fastly.Splunk.ServiceVersion x);
                 str (fastly.Splunk.Name x)]) <$> l
  | api.RespDatadogs l =>
      (fun x => [str (fastly.Datadog.ServiceID x);
                 int (fastly.Datadog.ServiceVersion x);
                 str (fastly.Datadog.Name x)]) <$> l
  | api.RespLogglys l =>
      (fun x => [str (fastly.Loggly.ServiceID x);
                 int (fastly.Loggly.ServiceVersion x);
                 str (fastly.Loggly.Name x)]) <$> l
  | _ => []
  end.

Definition splunk_block (total i : nat) (x : fastly.Splunk.t) : list string :=
  let f := tab +:+ tab in
  [ tab +:+ "Splunk " +:+ pretty (Z.of_nat i + 1) +:+ "/"
        +:+ pretty (Z.of_nat total) +:+ nl;
    f +:+ "Service ID: " +:+ fastly.Splunk.ServiceID x +:+ nl;
    f +:+ "Version: " +:+ pretty (fastly.Splunk.ServiceVersion x) +:+ nl;
    f +:+ "Name: " +:+ fastly.Splunk.Name x +:+ nl;
    f +:+ "URL: " +:+ fastly.Splunk.URL x +:+ nl;
    f +:+ "Token: " +:+ fastly.Splunk.Token x +:+ nl;
    f +:+ "TLS CA certificate: " +:+ fastly.Splunk.TLSCACert x +:+ nl;
    f +:+ "TLS hostname: " +:+ fastly.Splunk.TLSHostname x +:+ nl;
    f +:+ "TLS client certificate: " +:+ fastly.Splunk.TLSClientCert x +:+ nl;
    f +:+ "TLS client key: " +:+ fastly.Splunk.TLSClientKey x +:+ nl;
    f +:+ "Format: " +:+ fastly.Splunk.Format x +:+ nl;
    f +:+ "Format version: " +:+ pretty (fastly.Splunk.FormatVersion x) +:+ nl;
    f +:+ "Response condition: " +:+ fastly.Splunk.ResponseCondition x +:+ nl;
    f +:+ "Placement: " +:+ fastly.Splunk.Placement x +:+ nl ].

Definition datadog_block (total i : nat) (x : fastly.Datadog.t) : list string :=
  let f := tab +:+ tab in
  [ tab +:+ "Datadog " +:+ pretty (Z.of_nat i + 1) +:+ "/"
        +:+ pretty (Z.of_nat total) +:+ nl;
    f +:+ "Service ID: " +:+ fastly.Datadog.ServiceID x +:+ nl;
    f +:+ "Version: " +:+ pretty (fastly.Datadog.ServiceVersion x) +:+ nl;
    f +:+ "Name: " +:+ fastly.Datadog.Name x +:+ nl;
    f +:+ "Token: " +:+ fastly.Datadog.Token x +:+ nl;
    f +:+ "Region: " +:+ fastly.Datadog.Region x +:+ nl;
    f +:+ "Format: " +:+ fastly.Datadog.Format x +:+ nl;
    f +:+ "Format version: " +:+ pretty (fastly.Datadog.FormatVersion x) +:+ nl;
    f +:+ "Response condition: " +:+ fastly.Datadog.ResponseCondition x +:+ nl;
    f +:+ "Placement: " +:+ fastly.Datadog.Placement x +:+ nl ].

Definition loggly_block (total i : nat) (x : fastly.Loggly.t) : list string :=
  let f := tab +:+ tab in
  [ tab +:+ "Loggly " +:+ pretty (Z.of_nat i + 1) +:+ "/"
        +:+ pretty (Z.of_nat total) +:+ nl;
    f +:+ "Service ID: " +:+ fastly.Loggly.ServiceID x +:+ nl;
    f +:+ "Version: " +:+ pretty (fastly.Loggly.ServiceVersion x) +:+ nl;
    f +:+ "Name: " +:+ fastly.Loggly.Name x +:+ nl;
    f +:+ "Token: " +:+ fastly.Loggly.Token x +:+ nl;
    f +:+ "Format: " +:+ fastly.Loggly.Format x +:+ nl;
    f +:+ "Format version: " +:+ pretty (fastly.Loggly.FormatVersion x) +:+ nl;
    f +:+ "Response condition: " +:+ fastly.Loggly.ResponseCondition x +:+ nl;
    f +:+ "Placement: " +:+ fastly.Loggly.Placement x +:+ nl ].

(** One block of lines per endpoint, numbered from 1. *)
Definition verbose_blocks (r : api.Response) : list (list string) :=
  match r with
  | api.RespSplunks l => imap (splunk_block (length l)) l
  | api.RespDatadogs l => imap (datadog_block (length l)) l
  | api.RespLogglys l => imap (loggly_block (length l)) l
  | _ => []
  end.

(** The table: its header row, the lines, and the flush. *)
Definition table_shape (r : api.Response) : list Event :=
  TableAddHeader [str "SERVICE"; str "VERSION"; str "NAME"]
  :: (TableAddLine <$> table_rows r) ++ [TablePrint].

(** The verbose text: the version line, the blocks, an empty line. *)
Definition verbose_shape (N : Z) (r : api.Response) : list Event :=
  Write ("Version: " +:+ pretty N +:+ nl)
  :: (Write <$> concat (verbose_blocks r)) ++ [Write nl].

(** The JSON text, nothing else. *)
Definition json_shape (data : string) : list Event := [Write data].


(** ** The plain-text description of an FTP endpoint *)

Definition ftp_service_id_line (f : fastly.FTP.t) : string :=
  nl +:+ "Service ID: " +:+ fastly.FTP.ServiceID f +:+ nl.

Definition ftp_field_lines (f : fastly.FTP.t) : list string :=
  [ "Version: " +:+ pretty (fastly.FTP.ServiceVersion f) +:+ nl;
    "Name: " +:+ fastly.FTP.Name f +:+ nl;
    "Address: " +:+ fastly.FTP.Address f +:+ nl;
    "Port: " +:+ pretty (fastly.FTP.Port f) +:+ nl;
    "Username: " +:+ fastly.FTP.Username f +:+ nl;
    "Password: " +:+ fastly.FTP.Password f +:+ nl;
    "Public key: " +:+ fastly.FTP.PublicKey f +:+ nl;
    "Path: " +:+ fastly.FTP.Path f +:+ nl;
    "Period: " +:+ pretty (fastly.FTP.Period f) +:+ nl;
    "GZip level: " +:+ pretty (fastly.FTP.GzipLevel f) +:+ nl;
    "Format: " +:+ fastly.FTP.Format f +:+ nl;
    "Format version: " +:+ pretty (fastly.FTP.FormatVersion f) +:+ nl;
    "Response condition: " +:+ fastly.FTP.ResponseCondition f +:+ nl;
    "Timestamp format: " +:+ fastly.FTP.TimestampFormat f +:+ nl;
    "Placement: " +:+ fastly.FTP.Placement f +:+ nl;
    "Compression codec: " +:+ fastly.FTP.CompressionCodec f +:+ nl ].

(** ** The course of a command *)

(** Every [Exec] runs the same course: the flag check (where the command
    has a --json flag), the resolver, the construction of one request,
    the request itself, the rendering of the reply.  The definitions
    below describe that course; [Exec_course] shows that each [Exec]
    follows it. *)

Section Course.
Context `{Collaborators}.

(** The options a command gives the resolver. *)
Definition opts_of (c : Command) : cmd.ServiceDetailsOpts :=
  let read_only (g : config.Data) (m : manifest.Data)
      (serviceName : cmd.OptionalServiceNameID)
      (serviceVersion : cmd.OptionalServiceVersion) :=
    {| cmd.AllowActiveLocked := true;
       cmd.AutoCloneFlag := cmd.unset false;
       cmd.Manifest := m;
       cmd.ServiceNameFlag := serviceName;
       cmd.ServiceVersionFlag := serviceVersion;
       cmd.VerboseMode := config.Verbose_ (config.Flag_ g) |} in
  match c with
  | FTPDescribe c =>
      read_only (ftp.Globals c) (ftp.manifest c)
        (ftp.serviceName c) (ftp.serviceVersion c)
  | SplunkList c =>
      read_only (splunk.Globals c) (splunk.manifest c)
        (splunk.serviceName c) (splunk.serviceVersion c)
  | DatadogList c =>
      read_only (datadog.Globals c) (datadog.manifest c)
        (datadog.serviceName c) (datadog.serviceVersion c)
  | LogglyList c =>
      read_only (loggly.Globals c) (loggly.manifest c)
        (loggly.serviceName c) (loggly.serviceVersion c)
  | SnippetUpdate c =>
      {| cmd.AllowActiveLocked := false;
         cmd.AutoCloneFlag := snippet.autoClone c;
         cmd.Manifest := snippet.manifest c;
         cmd.ServiceNameFlag := snippet.serviceName c;
         cmd.ServiceVersionFlag := snippet.serviceVersion c;
         cmd.VerboseMode :=
           config.Verbose_ (config.Flag_ (snippet.Globals c)) |}
  end.

(** The request a command builds once service and version are resolved.
    Only the snippet update can fail here: it builds the dynamic request
    when --dynamic was given and the versioned one otherwise. *)
Definition request_of (c : Command) (serviceID : string)
    (serviceVersion : fastly.Version) : api.Request + error :=
  match c with
  | FTPDescribe c => inl (api.ReqGetFTP {|
      fastly.GetFTPInput.ServiceID := serviceID;
      fastly.GetFTPInput.ServiceVersion := fastly.Number serviceVersion;
      fastly.GetFTPInput.Name := fastly.GetFTPInput.Name (ftp.Input c) |})
  | SplunkList _ => inl (api.ReqListSplunks {|
      fastly.ListSplunksInput.ServiceID := serviceID;
      fastly.ListSplunksInput.ServiceVersion := fastly.Number serviceVersion |})
  | DatadogList _ => inl (api.ReqListDatadog {|
      fastly.ListDatadogInput.ServiceID := serviceID;
      fastly.ListDatadogInput.ServiceVersion := fastly.Number serviceVersion |})
  | LogglyList _ => inl (api.ReqListLoggly {|
      fastly.ListLogglyInput.ServiceID := serviceID;
      fastly.ListLogglyInput.ServiceVersion := fastly.Number serviceVersion |})
  | SnippetUpdate c =>
      if cmd.WasSet (snippet.dynamic c)
      then sum_map api.ReqUpdateDynamicSnippet id
             (snippet.constructDynamicInput c serviceID
                (fastly.Number serviceVersion))
      else sum_map api.ReqUpdateSnippet id
             (snippet.constructInput c serviceID
                (fastly.Number serviceVersion))
  end.

(** The entry in the error log for a failed request: bare for the
    read-only commands, with context for the update. *)
Definition api_error_entry (c : Command) (serviceID : string)
    (serviceVersion : fastly.Version) (err : error) : Event :=
  match c with
  | SnippetUpdate _ =>
      ErrLogAddWithContext err {[
        "Service ID" := str serviceID;
        "Service Version" := int (fastly.Number serviceVersion) ]}
  | _ => ErrLogAdd err
  end.

(** What a list command does with a listing it obtained. *)
Definition list_render (verbose json : bool) (N : Z) (r : api.Response)
  : option error * list Event :=
  if verbose then (None, verbose_shape N r)
  else if json then
    match json_Marshal r with
    | inl data => (None, json_shape data)
    | inr err => (Some err, [])
    end
  else (None, table_shape r).

(** What the describe command does with the endpoint it obtained. *)
Definition describe_render (verbose json : bool) (r : api.Response)
  : option error * list Event :=
  match r with
  | api.RespFTP f =>
      if json then
        match json_Marshal r with
        | inl data => (None, json_shape data)
        | inr err => (Some err, [])
        end
      else if verbose then (None, Write <$> ftp_field_lines f)
      else (None, Write <$> ftp_service_id_line f :: ftp_field_lines f)
  | _ => (None, [])
  end.

(** The success message of the update. *)
Definition update_success (req : api.Request) (r : api.Response) : list Event :=
  match req, r with
  | api.ReqUpdateDynamicSnippet _, api.RespDynamicSnippet v =>
      [Success ("Updated dynamic VCL snippet '" +:+ fastly.DynamicSnippet.ID v
                +:+ "' (service: " +:+ fastly.DynamicSnippet.ServiceID v
                +:+ ")")]
  | api.ReqUpdateSnippet input, api.RespSnippet v =>
      [Success ("Updated VCL snippet '" +:+ fastly.Snippet.Name v
                +:+ "' (previously: '"
                +:+ fastly.UpdateSnippetInput.Name input
                +:+ "', service: " +:+ fastly.Snippet.ServiceID v
                +:+ ", version: " +:+ pretty (fastly.Snippet.ServiceVersion v)
                +:+ ", type: " +:+ fastly.Snippet.Type_ v
                +:+ ", priority: " +:+ pretty (fastly.Snippet.Priority v)
                +:+ ")")]
  | _, _ => []
  end.

(** What a command does with the reply to its request. *)
Definition render (c : Command) (serviceVersion : fastly.Version)
    (req : api.Request) (r : api.Response) : option error * list Event :=
  let verbose := config.Verbose (Globals c) in
  match c with
  | FTPDescribe _ => describe_render verbose (json_set c) r
  | SplunkList _ | DatadogList _ | LogglyList _ =>
      list_render verbose (json_set c) (fastly.Number serviceVersion) r
  | SnippetUpdate _ => (None, update_success req r)
  end.

Definition course (c : Command) : option error * list Event :=
  if config.Verbose (Globals c) && json_set c
  then (Some ErrInvalidVerboseJSONCombo, [])
  else
    let opts := opts_of c in
    match cmd_ServiceDetails_answer opts with
    | cmd.ResolveFailed serviceID serviceVersion err =>
        (Some err,
         [CallServiceDetails opts;
          ErrLogAddWithContext err {[
            "Service ID" := str serviceID;
            "Service Version" := errors_ServiceVersion serviceVersion ]}])
    | cmd.Resolved serviceID serviceVersion =>
        match request_of c serviceID serviceVersion with
        | inr err =>
            (Some err,
             [CallServiceDetails opts;
              ErrLogAddWithContext err {[
                "Service ID" := str serviceID;
                "Service Version" := int (fastly.Number serviceVersion) ]}])
        | inl req =>
            match api.respond (config.APIClient (Globals c)) req with
            | inr err =>
                (Some err,
                 [CallServiceDetails opts; CallAPI req;
                  api_error_entry c serviceID serviceVersion err])
            | inl r =>
                let out := render c serviceVersion req r in
                (fst out, CallServiceDetails opts :: CallAPI req :: snd out)
            end
        end
    end.

End Course.

(** The course, case by case. *)
Inductive Course `{Collaborators} (c : Command)
  : option error -> list Event -> Prop :=
| Rejected :
    config.Verbose (Globals c) && json_set c = true ->
    Course c (Some ErrInvalidVerboseJSONCombo) []
| Unresolved serviceID serviceVersion err :
    config.Verbose (Globals c) && json_set c = false ->
    cmd_ServiceDetails_answer (opts_of c)
      = cmd.ResolveFailed serviceID serviceVersion err ->
    Course c (Some err)
      [CallServiceDetails (opts_of c);
       ErrLogAddWithContext err {[
         "Service ID" := str serviceID;
         "Service Version" := errors_ServiceVersion serviceVersion ]}]
| Unbuilt serviceID serviceVersion err :
    config.Verbose (Globals c) && json_set c = false ->
    cmd_ServiceDetails_answer (opts_of c)
      = cmd.Resolved serviceID serviceVersion ->
    request_of c serviceID serviceVersion = inr err ->
    Course c (Some err)
      [CallServiceDetails (opts_of c);
       ErrLogAddWithContext err {[
         "Service ID" := str serviceID;
         "Service Version" := int (fastly.Number serviceVersion) ]}]
| Refused serviceID serviceVersion req err :
    config.Verbose (Globals c) && json_set c = false ->
    cmd_ServiceDetails_answer (opts_of c)
      = cmd.Resolved serviceID serviceVersion ->
    request_of c serviceID serviceVersion = inl req ->
    api.respond (config.APIClient (Globals c)) req = inr err ->
    Course c (Some err)
      [CallServiceDetails (opts_of c); CallAPI req;
       api_error_entry c serviceID serviceVersion err]
| Answered serviceID serviceVersion req r :
    config.Verbose (Globals c) && json_set c = false ->
    cmd_ServiceDetails_answer (opts_of c)
      = cmd.Resolved serviceID serviceVersion ->
    request_of c serviceID serviceVersion = inl req ->
    api.respond (config.APIClient (Globals c)) req = inl r ->
    Course c (fst (render c serviceVersion req r))
      (CallServiceDetails (opts_of c) :: CallAPI req
       :: snd (render c serviceVersion req r)).

(** Requests that update a snippet. *)
Definition is_versioned_update (ev : Event) : bool :=
  match ev with CallAPI (api.ReqUpdateSnippet _) => true | _ => false end.

Definition is_dynamic_update (ev : Event) : bool :=
  match ev with CallAPI (api.ReqUpdateDynamicSnippet _) => true | _ => false end.

Definition is_update (ev : Event) : bool :=
  is_versioned_update ev || is_dynamic_update ev.

(** The update is turned down: it sends no update request, and once the
    resolver has resolved the service, [Exec] returns the error [err]. *)
Definition turned_down `{Collaborators} (u : snippet.UpdateCommand)
    (err : error) : Prop :=
  Forall (fun ev => is_update ev = false) (trace (SnippetUpdate u))
  /\ forall opts serviceID serviceVersion,
       CallServiceDetails opts ∈ trace (SnippetUpdate u) ->
       cmd_ServiceDetails_answer opts
         = cmd.Resolved serviceID serviceVersion ->
       result (SnippetUpdate u) = Some err.

(** An entry of the error log that records [err]. *)
Definition logs (entry : Event) (err : error) : Prop :=
  entry = ErrLogAdd err \/ exists ctx, entry = ErrLogAddWithContext err ctx.

(** The resolver or a request of this run answered with an error. *)
Definition collaborator_failed `{Collaborators} (c : Command) : Prop :=
  (exists opts serviceID serviceVersion err,
     CallServiceDetails opts ∈ trace c
     /\ cmd_ServiceDetails_answer opts
        = cmd.ResolveFailed serviceID serviceVersion err)
  \/ (exists req err,
        CallAPI req ∈ trace c
        /\ api.respond (config.APIClient (Globals c)) req = inr err).

(** The same update with other values for --name, --priority and --type. *)
Definition with_name_priority_type (u : snippet.UpdateCommand)
    (name : string) (priority : cmd.OptionalInt)
    (location : cmd.OptionalString) : snippet.UpdateCommand :=
  {| snippet.Globals := snippet.Globals u;
     snippet.autoClone := snippet.autoClone u;
     snippet.content := snippet.content u;
     snippet.dynamic := snippet.dynamic u;
     snippet.location := location;
     snippet.manifest := snippet.manifest u;
     snippet.name := name;
     snippet.newName := snippet.newName u;
     snippet.priority := priority;
     snippet.serviceName := snippet.serviceName u;
     snippet.serviceVersion := snippet.serviceVersion u;
     snippet.snippetID := snippet.snippetID u |}.

(** ** A sample environment *)

Module sample.

Definition version : fastly.Version :=
  {| fastly.Number := 3; fastly.Active := true; fastly.Locked := true |}.

Definition endpoint : fastly.FTP.t :=
  {| fastly.FTP.ServiceID := "SU1Z0isxPaozGVKXdv0eY";
     fastly.FTP.ServiceVersion := 3; fastly.FTP.Name := "logs";
     fastly.FTP.Address := "ftp.example.com"; fastly.FTP.Port := 21;
     fastly.FTP.Username := "anonymous"; fastly.FTP.Password := "secret";
     fastly.FTP.PublicKey := ""; fastly.FTP.Path := "/logs";
     fastly.FTP.Period := 3600; fastly.FTP.GzipLevel := 0;
     fastly.FTP.Format := "%h"; fastly.FTP.FormatVersion := 2;
     fastly.FTP.ResponseCondition := "";
     fastly.FTP.TimestampFormat := "%Y"; fastly.FTP.Placement := "none";
     fastly.FTP.CompressionCodec := "zstd" |}.

Definition splunk1 : fastly.Splunk.t :=
  {| fastly.Splunk.ServiceID := "SU1Z0isxPaozGVKXdv0eY";
     fastly.Splunk.ServiceVersion := 3; fastly.Splunk.Name := "logs";
     fastly.Splunk.URL := "example.com"; fastly.Splunk.Token := "tkn";
     fastly.Splunk.TLSCACert := ""; fastly.Splunk.TLSHostname := "";
     fastly.Splunk.TLSClientCert := ""; fastly.Splunk.TLSClientKey := "";
     fastly.Splunk.Format := "%h"; fastly.Splunk.FormatVersion := 2;
     fastly.Splunk.ResponseCondition := "";
     fastly.Splunk.Placement := "none" |}.

(** A client that knows one Splunk endpoint, no Datadog or Loggly
    endpoint, one FTP endpoint, and accepts every snippet update. *)
Definition client : api.Interface :=
  {| api.GetFTP := fun _ => inl endpoint;
     api.ListSplunks := fun _ => inl [splunk1];
     api.ListDatadog := fun _ => inl [];
     api.ListLoggly := fun _ => inl [];
     api.UpdateSnippet := fun i =>
       inl {| fastly.Snippet.ServiceID := fastly.UpdateSnippetInput.ServiceID i;
              fastly.Snippet.ServiceVersion :=
                fastly.UpdateSnippetInput.ServiceVersion i;
              fastly.Snippet.Name :=
                default (fastly.UpdateSnippetInput.Name i)
                        (fastly.UpdateSnippetInput.NewName i);
              fastly.Snippet.Type_ := "recv";
              fastly.Snippet.Priority := 100 |};
     api.UpdateDynamicSnippet := fun i =>
       inl {| fastly.DynamicSnippet.ServiceID :=
                fastly.UpdateDynamicSnippetInput.ServiceID i;
              fastly.DynamicSnippet.ID :=
                fastly.UpdateDynamicSnippetInput.ID i |} |}.

(** A client whose every call fails. *)
Definition down : api.Interface :=
  {| api.GetFTP := fun _ => inr (CollaboratorError "503");
     api.ListSplunks := fun _ => inr (CollaboratorError "503");
     api.ListDatadog := fun _ => inr (CollaboratorError "503");
     api.ListLoggly := fun _ => inr (CollaboratorError "503");
     api.UpdateSnippet := fun _ => inr (CollaboratorError "503");
     api.UpdateDynamicSnippet := fun _ => inr (CollaboratorError "503") |}.

(** One way [cmd.Content] may behave, for the sample runs only (its code
    lies outside the five command files; the --content flag it serves is
    declared as "VCL snippet passed as file path or content"): a value
    that names a file on the local disk stands for the text of that
    file, any other value stands for itself.  No theorem below depends
    on this choice. *)
Definition Content_on (disk : gmap string string) (flagval : string) : string :=
  default flagval (disk !! flagval).

(** A resolver that resolves every request to version 3 of one service,
    a JSON encoder that answers with a fixed text, a given disk. *)
Definition on_disk (disk : gmap string string) : Collaborators :=
  {| cmd_ServiceDetails_answer := fun _ =>
       cmd.Resolved "SU1Z0isxPaozGVKXdv0eY" version;
     errors_ServiceVersion := fun v => int (from_option fastly.Number 0 v);
     json_Marshal := fun _ => inl "[]";
     cmd_Content := Content_on disk |}.

Definition world : Collaborators := on_disk ∅.

(** The same, with a resolver that finds no service. *)
Definition lost : Collaborators :=
  {| cmd_ServiceDetails_answer := fun _ =>
       cmd.ResolveFailed "" None (CollaboratorError "no service ID");
     errors_ServiceVersion := fun v => int (from_option fastly.Number 0 v);
     json_Marshal := fun _ => inl "[]";
     cmd_Content := Content_on ∅ |}.

Definition globals (client : api.Interface) (verbose : bool) : config.Data :=
  {| config.Flag_ := {| config.Verbose_ := verbose |};
     config.APIClient := client |}.

Definition project : manifest.Data :=
  {| manifest.Flag_ := {| manifest.ServiceID := "SU1Z0isxPaozGVKXdv0eY" |} |}.

Definition flag {A} (v : A) : cmd.Optional A :=
  {| cmd.WasSet := true; cmd.Value := v |}.

Definition describe (client : api.Interface) (verbose json : bool)
  : ftp.DescribeCommand :=
  {| ftp.Globals := globals client verbose; ftp.manifest := project;
     ftp.Input := {| fastly.GetFTPInput.ServiceID := "";
                     fastly.GetFTPInput.ServiceVersion := 0;
                     fastly.GetFTPInput.Name := "logs" |};
     ftp.json := json; ftp.serviceName := cmd.unset "";
     ftp.serviceVersion := flag "3" |}.

Definition list_splunk (client : api.Interface) (verbose json : bool)
  : splunk.ListCommand :=
  {| splunk.Globals := globals client verbose; splunk.manifest := project;
     splunk.Input := {| fastly.ListSplunksInput.ServiceID := "";
                        fastly.ListSplunksInput.ServiceVersion := 0 |};
     splunk.json := json; splunk.serviceName := cmd.unset "";
     splunk.serviceVersion := flag "3" |}.

Definition list_datadog (client : api.Interface) (verbose json : bool)
  : datadog.ListCommand :=
  {| datadog.Globals := globals client verbose; datadog.manifest := project;
     datadog.Input := {| fastly.ListDatadogInput.ServiceID := "";
                         fastly.ListDatadogInput.ServiceVersion := 0 |};
     datadog.json := json; datadog.serviceName := cmd.unset "";
     datadog.serviceVersion := flag "3" |}.

(** snippet update --version 3 with the given further flags. *)
Definition update (dynamic : cmd.OptionalBool) (name snippetID : string)
    (newName content : cmd.OptionalString) : snippet.UpdateCommand :=
  {| snippet.Globals := globals client false;
     snippet.autoClone := flag true;
     snippet.content := content;
     snippet.dynamic := dynamic;
     snippet.location := cmd.unset "";
     snippet.manifest := project;
     snippet.name := name;
     snippet.newName := newName;
     snippet.priority := cmd.unset 0;
     snippet.serviceName := cmd.unset "";
     snippet.serviceVersion := flag "3";
     snippet.snippetID := snippetID |}.

(** snippet update --version 3 --snippet-id 7Gs... (versioned mode). *)
Definition with_snippet_id : snippet.UpdateCommand :=
  update (cmd.unset false) "" "7Gs0qBqAmTfqpgtLJlJ5lr"
    (cmd.unset "") (cmd.unset "").

(** snippet update --version 3 --dynamic --snippet-id 7Gs... *)
Definition dynamic_by_id : snippet.UpdateCommand :=
  update (flag true) "" "7Gs0qBqAmTfqpgtLJlJ5lr"
    (cmd.unset "") (cmd.unset "").

(** snippet update --version 3 --name pass --content snippet.vcl *)
Definition from_file : snippet.UpdateCommand :=
  update (cmd.unset false) "pass" "" (cmd.unset "") (flag "snippet.vcl").

(** Two states of the local disk: the file the flag names, alone and
    next to a second file. *)
Definition disk1 : gmap string string :=
  {[ "snippet.vcl" := "return(pass);" ]}.
Definition disk3 : gmap string string :=
  {[ "snippet.vcl" := "return(pass);"; "main.vcl" := "" ]}.

End sample.

(** ** Further observations *)

(** Events that put something on [out]. *)
Definition is_output (ev : Event) : bool :=
  match ev with
  | Write _ | TableAddHeader _ | TableAddLine _ | TablePrint | Success _ => true
  | _ => false
  end.

(** Entries of the error log. *)
Definition is_errlog (ev : Event) : bool :=
  match ev with
  | ErrLogAdd _ | ErrLogAddWithContext _ _ => true
  | _ => false
  end.

(** The service a request names. *)
Definition service_of (r : api.Request) : string :=
  match r with
  | api.ReqGetFTP i => fastly.GetFTPInput.ServiceID i
  | api.ReqListSplunks i => fastly.ListSplunksInput.ServiceID i
  | api.ReqListDatadog i => fastly.ListDatadogInput.ServiceID i
  | api.ReqListLoggly i => fastly.ListLogglyInput.ServiceID i
  | api.ReqUpdateSnippet i => fastly.UpdateSnippetInput.ServiceID i
  | api.ReqUpdateDynamicSnippet i => fastly.UpdateDynamicSnippetInput.ServiceID i
  end.

(** Whether a request is of the kind a command sends. *)
Definition own_request (c : Command) (r : api.Request) : bool :=
  match c, r with
  | FTPDescribe _, api.ReqGetFTP _
  | SplunkList _, api.ReqListSplunks _
  | DatadogList _, api.ReqListDatadog _
  | LogglyList _, api.ReqListLoggly _
  | SnippetUpdate _, api.ReqUpdateSnippet _
  | SnippetUpdate _, api.ReqUpdateDynamicSnippet _ => true
  | _, _ => false
  end.

(** The fields of a command that the resolver is told about. *)
Definition manifest_of (c : Command) : manifest.Data :=
  match c with
  | FTPDescribe c => ftp.manifest c
  | SplunkList c => splunk.manifest c
  | DatadogList c => datadog.manifest c
  | LogglyList c => loggly.manifest c
  | SnippetUpdate c => snippet.manifest c
  end.

Definition serviceName_of (c : Command) : cmd.OptionalServiceNameID :=
  match c with
  | FTPDescribe c => ftp.serviceName c
  | SplunkList c => splunk.serviceName c
  | DatadogList c => datadog.serviceName c
  | LogglyList c => loggly.serviceName c
  | SnippetUpdate c => snippet.serviceName c
  end.

Definition serviceVersion_of (c : Command) : cmd.OptionalServiceVersion :=
  match c with
  | FTPDescribe c => ftp.serviceVersion c
  | SplunkList c => splunk.serviceVersion c
  | DatadogList c => datadog.serviceVersion c
  | LogglyList c => loggly.serviceVersion c
  | SnippetUpdate c => snippet.serviceVersion c
  end.

(** The same update with another --dynamic flag. *)
Definition with_dynamic (u : snippet.UpdateCommand) (d : cmd.OptionalBool)
  : snippet.UpdateCommand :=
  {| snippet.Globals := snippet.Globals u;
     snippet.autoClone := snippet.autoClone u;
     snippet.content := snippet.content u;
     snippet.dynamic := d;
     snippet.location := snippet.location u;
     snippet.manifest := snippet.manifest u;
     snippet.name := snippet.name u;
     snippet.newName := snippet.newName u;
     snippet.priority := snippet.priority u;
     snippet.serviceName := snippet.serviceName u;
     snippet.serviceVersion := snippet.serviceVersion u;
     snippet.snippetID := snippet.snippetID u |}.

(** How often an event of some kind occurs. *)
Definition occurrences (kind : Event -> bool) (t : list Event) : nat :=
  length (List.filter kind t).

(** Further sample runs. *)
Module fixture.

(** An environment like [sample.world] whose JSON encoder fails. *)
Definition mute : Collaborators :=
  {| cmd_ServiceDetails_answer := fun _ =>
       cmd.Resolved "SU1Z0isxPaozGVKXdv0eY" sample.version;
     errors_ServiceVersion := fun v => int (from_option fastly.Number 0 v);
     json_Marshal := fun _ => inr (CollaboratorError "json: unsupported value");
     cmd_Content := sample.Content_on ∅ |}.

(** snippet update --version 3 --name pass --new-name skip --priority 0 *)
Definition rename : snippet.UpdateCommand :=
  {| snippet.Globals := sample.globals sample.client false;
     snippet.autoClone := cmd.unset false;
     snippet.content := cmd.unset "";
     snippet.dynamic := cmd.unset false;
     snippet.location := cmd.unset "";
     snippet.manifest := sample.project;
     snippet.name := "pass";
     snippet.newName := sample.flag "skip";
     snippet.priority := sample.flag 0;
     snippet.serviceName := cmd.unset "";
     snippet.serviceVersion := sample.flag "3";
     snippet.snippetID := "" |}.

(** snippet update --version latest --name pass --new-name skip *)
Definition latest : snippet.UpdateCommand :=
  {| snippet.Globals := sample.globals sample.client false;
     snippet.autoClone := cmd.unset false;
     snippet.content := cmd.unset "";
     snippet.dynamic := cmd.unset false;
     snippet.location := cmd.unset "";
     snippet.manifest := sample.project;
     snippet.name := "pass";
     snippet.newName := sample.flag "skip";
     snippet.priority := cmd.unset 0;
     snippet.serviceName := cmd.unset "";
     snippet.serviceVersion := sample.flag "latest";
     snippet.snippetID := "" |}.

(** Two runs that differ in what the resolver hands back and in nothing
    else: in the first the service's latest version is the editable
    version 3, in the second the editable version 4. *)
Definition first_run : Collaborators :=
  {| cmd_ServiceDetails_answer := fun _ =>
       cmd.Resolved "SU1Z0isxPaozGVKXdv0eY"
         {| fastly.Number := 3; fastly.Active := false;
            fastly.Locked := false |};
     errors_ServiceVersion := fun v => int (from_option fastly.Number 0 v);
     json_Marshal := fun _ => inl "[]";
     cmd_Content := sample.Content_on ∅ |}.

Definition second_run : Collaborators :=
  {| cmd_ServiceDetails_answer := fun _ =>
       cmd.Resolved "SU1Z0isxPaozGVKXdv0eY"
         {| fastly.Number := 4; fastly.Active := false;
            fastly.Locked := false |};
     errors_ServiceVersion := fun v => int (from_option fastly.Number 0 v);
     json_Marshal := fun _ => inl "[]";
     cmd_Content := sample.Content_on ∅ |}.

End fixture.


(** ** The constructors *)

(** A constructor makes the zero command, stores the globals and the
    manifest in it and registers the command's flags.  What it registers
    is kept as the list of its registration calls, each with the options
    the source gives it; descriptions (help texts) are left out. *)
Module registry.

(** The fields of the command structs that flags write to. *)
Inductive Field :=
| json | manifest_Flag_ServiceID | serviceName | serviceVersion | Input_Name
| autoClone | content | dynamic | name | newName | priority | snippetID
| location.

(** A destination [&c.f] or [&c.f.Value]. *)
Inductive Dst :=
| Plain (f : Field)
| ValueOf (f : Field).

(** The options of [RegisterFlag] and [RegisterFlagBool]; [Action] is the
    field whose [Set] method is attached, if any. *)
Record FlagOpts := {
  Action : option Field;
  Name : string;
  Dst_ : Dst;
  Required : bool;
  Short : option ascii }.

Inductive Var :=
| StringVar | BoolVar | IntVar
| EnumVar (options : list string).

(** One registration call. *)
Inductive Call :=
| RegisterFlag (opts : FlagOpts)
| RegisterFlagBool (opts : FlagOpts)
| RegisterAutoCloneFlag (action : option Field) (dst : Dst)
| Flag (opts : FlagOpts) (var : Var).

(** The command clause: [parent.Command(name, help).Alias(...)] and the
    registrations made on it, in order. *)
Record CmdClause := {
  Command_ : string;
  Alias : list string;
  Calls : list Call }.

End registry.

(** Modelled from the spec: the names of the shared flags are constants
    of package cmd, outside the five command files; the specification
    lists them as --json, --service-id, --service-name, --version and
    --autoclone. *)
Definition cmd_FlagJSONName : string := "json".
Definition cmd_FlagServiceIDName : string := "service-id".
Definition cmd_FlagServiceName : string := "service-name".
Definition cmd_FlagVersionName : string := "version".
Definition cmd_FlagAutoCloneName : string := "autoclone".

(** What a registration call declares. *)
Definition flag_name (r : registry.Call) : string :=
  match r with
  | registry.RegisterFlag o | registry.RegisterFlagBool o
  | registry.Flag o _ => registry.Name o
  | registry.RegisterAutoCloneFlag _ _ => cmd_FlagAutoCloneName
  end.

Definition flag_short (r : registry.Call) : option ascii :=
  match r with
  | registry.RegisterFlag o | registry.RegisterFlagBool o
  | registry.Flag o _ => registry.Short o
  | registry.RegisterAutoCloneFlag _ _ => None
  end.

Definition flag_required (r : registry.Call) : bool :=
  match r with
  | registry.RegisterFlag o | registry.RegisterFlagBool o
  | registry.Flag o _ => registry.Required o
  | registry.RegisterAutoCloneFlag _ _ => false
  end.

Definition flag_action (r : registry.Call) : option registry.Field :=
  match r with
  | registry.RegisterFlag o | registry.RegisterFlagBool o
  | registry.Flag o _ => registry.Action o
  | registry.RegisterAutoCloneFlag a _ => a
  end.

Definition flag_dst (r : registry.Call) : registry.Dst :=
  match r with
  | registry.RegisterFlag o | registry.RegisterFlagBool o
  | registry.Flag o _ => registry.Dst_ o
  | registry.RegisterAutoCloneFlag _ d => d
  end.

(** NewDescribeCommand returns a usable command registered under the
    parent. *)
Definition ftp_NewDescribeCommand (globals : config.Data)
    (data : manifest.Data) : ftp.DescribeCommand * registry.CmdClause :=
  ({| ftp.Globals := globals;
      ftp.manifest := data;
      ftp.Input := {| fastly.GetFTPInput.ServiceID := "";
                      fastly.GetFTPInput.ServiceVersion := 0;
                      fastly.GetFTPInput.Name := "" |};
      ftp.json := false;
      ftp.serviceName := cmd.unset "";
      ftp.serviceVersion := cmd.unset "" |},
   {| registry.Command_ := "describe";
      registry.Alias := ["get"];
      registry.Calls := [
        registry.RegisterFlagBool {|
          registry.Action := None;
          registry.Name := cmd_FlagJSONName;
          registry.Dst_ := registry.Plain registry.json;
          registry.Required := false;
          registry.Short := Some "j"%char |};
        registry.RegisterFlag {|
          registry.Action := None;
          registry.Name := cmd_FlagServiceIDName;
          registry.Dst_ := registry.Plain registry.manifest_Flag_ServiceID;
          registry.Required := false;
          registry.Short := Some "s"%char |};
        registry.RegisterFlag {|
          registry.Action := Some registry.serviceName;
          registry.Name := cmd_FlagServiceName;
          registry.Dst_ := registry.ValueOf registry.serviceName;
          registry.Required := false;
          registry.Short := None |};
        registry.RegisterFlag {|
          registry.Action := None;
          registry.Name := cmd_FlagVersionName;
          registry.Dst_ := registry.ValueOf registry.serviceVersion;
          registry.Required := true;
          registry.Short := None |};
        registry.Flag {|
          registry.Action := None;
          registry.Name := "name";
          registry.Dst_ := registry.Plain registry.Input_Name;
          registry.Required := true;
          registry.Short := Some "n"%char |} registry.StringVar ] |}).

(** The flags the three list constructors register alike. *)
Definition list_registrations : list registry.Call := [
  registry.RegisterFlagBool {|
    registry.Action := None;
    registry.Name := cmd_FlagJSONName;
    registry.Dst_ := registry.Plain registry.json;
    registry.Required := false;
    registry.Short := Some "j"%char |};
  registry.RegisterFlag {|
    registry.Action := None;
    registry.Name := cmd_FlagServiceIDName;
    registry.Dst_ := registry.Plain registry.manifest_Flag_ServiceID;
    registry.Required := false;
    registry.Short := Some "s"%char |};
  registry.RegisterFlag {|
    registry.Action := Some registry.serviceName;
    registry.Name := cmd_FlagServiceName;
    registry.Dst_ := registry.ValueOf registry.serviceName;
    registry.Required := false;
    registry.Short := None |};
  registry.RegisterFlag {|
    registry.Action := None;
    registry.Name := cmd_FlagVersionName;
    registry.Dst_ := registry.ValueOf registry.serviceVersion;
    registry.Required := true;
    registry.Short := None |} ].

(** NewListCommand returns a usable command registered under the parent
    (package splunk). *)
Definition splunk_NewListCommand (globals : config.Data)
    (data : manifest.Data) : splunk.ListCommand * registry.CmdClause :=
  ({| splunk.Globals := globals;
      splunk.manifest := data;
      splunk.Input := {| fastly.ListSplunksInput.ServiceID := "";
                         fastly.ListSplunksInput.ServiceVersion := 0 |};
      splunk.json := false;
      splunk.serviceName := cmd.unset "";
      splunk.serviceVersion := cmd.unset "" |},
   {| registry.Command_ := "list";
      registry.Alias := [];
      registry.Calls := list_registrations |}).

(** NewListCommand (package datadog). *)
Definition datadog_NewListCommand (globals : config.Data)
    (data : manifest.Data) : datadog.ListCommand * registry.CmdClause :=
  ({| datadog.Globals := globals;
      datadog.manifest := data;
      datadog.Input := {| fastly.ListDatadogInput.ServiceID := "";
                          fastly.ListDatadogInput.ServiceVersion := 0 |};
      datadog.json := false;
      datadog.serviceName := cmd.unset "";
      datadog.serviceVersion := cmd.unset "" |},
   {| registry.Command_ := "list";
      registry.Alias := [];
      registry.Calls := list_registrations |}).

(** NewListCommand (package loggly). *)
Definition loggly_NewListCommand (globals : config.Data)
    (data : manifest.Data) : loggly.ListCommand * registry.CmdClause :=
  ({| loggly.Globals := globals;
      loggly.manifest := data;
      loggly.Input := {| fastly.ListLogglyInput.ServiceID := "";
                         fastly.ListLogglyInput.ServiceVersion := 0 |};
      loggly.json := false;
      loggly.serviceName := cmd.unset "";
      loggly.serviceVersion := cmd.unset "" |},
   {| registry.Command_ := "list";
      registry.Alias := [];
      registry.Calls := list_registrations |}).

(** NewUpdateCommand returns a usable command registered under the
    parent.  [Locations], the values --type accepts, is declared in
    another file of package snippet and is a parameter here. *)
Definition snippet_NewUpdateCommand (Locations : list string)
    (globals : config.Data) (data : manifest.Data)
  : snippet.UpdateCommand * registry.CmdClause :=
  ({| snippet.Globals := globals;
      snippet.autoClone := cmd.unset false;
      snippet.content := cmd.unset "";
      snippet.dynamic := cmd.unset false;
      snippet.location := cmd.unset "";
      snippet.manifest := data;
      snippet.name := "";
      snippet.newName := cmd.unset "";
      snippet.priority := cmd.unset 0;
      snippet.serviceName := cmd.unset "";
      snippet.serviceVersion := cmd.unset "";
      snippet.snippetID := "" |},
   {| registry.Command_ := "update";
      registry.Alias := [];
      registry.Calls := [
        registry.RegisterFlag {|
          registry.Action := None;
          registry.Name := cmd_FlagVersionName;
          registry.Dst_ := registry.ValueOf registry.serviceVersion;
          registry.Required := true;
          registry.Short := None |};
        registry.RegisterAutoCloneFlag (Some registry.autoClone)
          (registry.ValueOf registry.autoClone);
        registry.Flag {|
          registry.Action := Some registry.content;
          registry.Name := "content";
          registry.Dst_ := registry.ValueOf registry.content;
          registry.Required := false;
          registry.Short := None |} registry.StringVar;
        registry.Flag {|
          registry.Action := Some registry.dynamic;
          registry.Name := "dynamic";
          registry.Dst_ := registry.ValueOf registry.dynamic;
          registry.Required := false;
          registry.Short := None |} registry.BoolVar;
        registry.Flag {|
          registry.Action := None;
          registry.Name := "name";
          registry.Dst_ := registry.Plain registry.name;
          registry.Required := false;
          registry.Short := None |} registry.StringVar;
        registry.Flag {|
          registry.Action := Some registry.newName;
          registry.Name := "new-name";
          registry.Dst_ := registry.ValueOf registry.newName;
          registry.Required := false;
          registry.Short := None |} registry.StringVar;
        registry.Flag {|
          registry.Action := Some registry.priority;
          registry.Name := "priority";
          registry.Dst_ := registry.ValueOf registry.priority;
          registry.Required := false;
          registry.Short := Some "p"%char |} registry.IntVar;
        registry.RegisterFlag {|
          registry.Action := None;
          registry.Name := cmd_FlagServiceIDName;
          registry.Dst_ := registry.Plain registry.manifest_Flag_ServiceID;
          registry.Required := false;
          registry.Short := Some "s"%char |};
        registry.RegisterFlag {|
          registry.Action := Some registry.serviceName;
          registry.Name := cmd_FlagServiceName;
          registry.Dst_ := registry.ValueOf registry.serviceName;
          registry.Required := false;
          registry.Short := None |};
        registry.Flag {|
          registry.Action := None;
          registry.Name := "snippet-id";
          registry.Dst_ := registry.Plain registry.snippetID;
          registry.Required := false;
          registry.Short := None |} registry.StringVar;
        registry.Flag {|
          registry.Action := Some registry.location;
          registry.Name := "type";
          registry.Dst_ := registry.ValueOf registry.location;
          registry.Required := false;
          registry.Short := None |} (registry.EnumVar Locations) ] |}).

(** The clauses of the five commands. *)
Definition clauses (Locations : list string) (globals : config.Data)
    (data : manifest.Data) : list registry.CmdClause :=
  [ snd (ftp_NewDescribeCommand globals data);
    snd (splunk_NewListCommand globals data);
    snd (datadog_NewListCommand globals data);
    snd (loggly_NewListCommand globals data);
    snd (snippet_NewUpdateCommand Locations globals data) ].

(** A flag that writes the value of an optional field also marks the
    field as set, unless the flag is required; and a flag marks no field
    but the one it writes. *)
Definition tracks_presence (r : registry.Call) : Prop :=
  (forall f, flag_action r = Some f -> flag_dst r = registry.ValueOf f)
  /\ (forall f, flag_dst r = registry.ValueOf f ->
        flag_action r = Some f \/ flag_required r = true).

(** ** Loops and sequencing *)

Lemma for_range_from_run {A} (body : nat -> A -> M unit) :
  (forall i x, fst (body i x) = Next tt) ->
  forall l i, for_range_from i l body
    = (Next tt, concat (imap (fun j x => snd (body (i + j)%nat x)) l)).
Proof.
  intros Hbody l. induction l as [|x l IH]; intros i; [reflexivity|].
  cbn [for_range_from]. unfold mbind, M_bind. rewrite Hbody, IH.
  cbn [fst snd imap concat]. rewrite Nat.add_0_r. do 3 f_equal.
  apply imap_ext. intros j y _. cbn. by rewrite Nat.add_succ_r.
Qed.

Lemma concat_imap_singleton {A B} (f : A -> B) (l : list A) :
  concat (imap (fun _ x => [f x]) l) = f <$> l.
Proof.
  induction l as [|x l IH]; [reflexivity|].
  cbn [imap concat fmap list_fmap app]. f_equal. exact IH.
Qed.

Lemma fmap_concat_imap {A B C} (g : B -> C) (f : nat -> A -> list B) (l : list A) :
  g <$> concat (imap f l) = concat (imap (fun i x => g <$> f i x) l).
Proof.
  revert f. induction l as [|x l IH]; intros f; [reflexivity|].
  cbn [imap concat]. rewrite fmap_app. f_equal. apply IH.
Qed.

Ltac exec_unfold :=
  unfold run, Exec, ftp.Exec, splunk.Exec, datadog.Exec, loggly.Exec,
    snippet.Exec, when_, cmd_ServiceDetails,
    APIClient.GetFTP, APIClient.ListSplunks, APIClient.ListDatadog,
    APIClient.ListLoggly, APIClient.UpdateSnippet,
    APIClient.UpdateDynamicSnippet, APIClient.call,
    ErrLog.Add, ErrLog.AddWithContext,
    text.NewTable, text.AddHeader, text.AddLine, text.Print, text.Success,
    Fprintf, Fprint, Fprintln, emit, return_, for_range.

Ltac exec_step :=
  cbn -[fmt.Sprintf golit insert singletonM for_range_from config.Verbose
        snippet.constructInput snippet.constructDynamicInput].

(** Unrolls a list command whose listing is known. *)
Ltac exec_loop :=
  rewrite ?for_range_from_run by (intros; reflexivity); exec_step.

(** ** Each [Exec] follows the course *)

Section Courses.
Context `{Collaborators}.

Lemma ftp_Exec_course (c : ftp.DescribeCommand) :
  run (ftp.Exec c) = course (FTPDescribe c).
Proof.
  unfold course, opts_of, request_of, render, describe_render,
    api_error_entry, Globals, json_set.
  exec_unfold.
  destruct (config.Verbose (ftp.Globals c)), (ftp.json c); exec_step;
    try reflexivity.
  all: destruct (cmd_ServiceDetails_answer _) as [sid v|sid v err]; exec_step;
    try reflexivity.
  all: destruct (api.GetFTP _ _) as [f|err]; exec_step; try reflexivity.
  all: destruct (json_Marshal _); reflexivity.
Qed.

(** The three list commands are proved alike. *)
Ltac list_course split_answer :=
  unfold course, opts_of, request_of, render, list_render,
    api_error_entry, Globals, json_set;
  exec_unfold;
  match goal with
  | |- context [config.Verbose ?g && ?j] =>
      destruct (config.Verbose g), j; exec_step; try reflexivity
  end;
  (destruct (cmd_ServiceDetails_answer _) as [sid v|sid v err]; exec_step;
   try reflexivity);
  (split_answer; exec_step; try reflexivity);
  [ exec_loop; unfold verbose_shape, verbose_blocks;
    rewrite fmap_concat_imap; reflexivity
  | destruct (json_Marshal _); reflexivity
  | exec_loop; unfold table_shape, table_rows;
    rewrite concat_imap_singleton, <- list_fmap_compose; reflexivity ].

Lemma splunk_Exec_course (c : splunk.ListCommand) :
  run (splunk.Exec c) = course (SplunkList c).
Proof. list_course ltac:(destruct (api.ListSplunks _ _) as [l|err]). Qed.

Lemma datadog_Exec_course (c : datadog.ListCommand) :
  run (datadog.Exec c) = course (DatadogList c).
Proof. list_course ltac:(destruct (api.ListDatadog _ _) as [l|err]). Qed.

Lemma loggly_Exec_course (c : loggly.ListCommand) :
  run (loggly.Exec c) = course (LogglyList c).
Proof. list_course ltac:(destruct (api.ListLoggly _ _) as [l|err]). Qed.

Lemma snippet_Exec_course (c : snippet.UpdateCommand) :
  run (snippet.Exec c) = course (SnippetUpdate c).
Proof.
  unfold course, opts_of, request_of, render, update_success,
    api_error_entry, Globals, json_set.
  rewrite andb_false_r.
  exec_unfold. exec_step.
  destruct (cmd_ServiceDetails_answer _) as [sid v|sid v err]; exec_step;
    try reflexivity.
  destruct (cmd.WasSet (snippet.dynamic c)); exec_step.
  - destruct (snippet.constructDynamicInput _ _ _) as [input|err]; exec_step;
      try reflexivity.
    destruct (api.UpdateDynamicSnippet _ _) as [d|err]; reflexivity.
  - destruct (snippet.constructInput _ _ _) as [input|err]; exec_step;
      try reflexivity.
    destruct (api.UpdateSnippet _ _) as [d|err]; reflexivity.
Qed.

Lemma Exec_course (c : Command) : run (Exec c) = course c.
Proof.
  destruct c; cbn [Exec].
  - apply ftp_Exec_course.
  - apply splunk_Exec_course.
  - apply datadog_Exec_course.
  - apply loggly_Exec_course.
  - apply snippet_Exec_course.
Qed.

End Courses.

(** ** Reading a run off its course *)

Section Runs.
Context `{Collaborators}.

Lemma Exec_Course (c : Command) : Course c (result c) (trace c).
Proof.
  unfold result, trace. rewrite Exec_course. unfold course.
  destruct (config.Verbose (Globals c) && json_set c) eqn:Hguard.
  { by apply Rejected. }
  destruct (cmd_ServiceDetails_answer (opts_of c)) as [sid v|sid v err] eqn:Hres.
  2: { by eapply Unresolved. }
  destruct (request_of c sid v) as [req|err] eqn:Hreq.
  2: { by eapply Unbuilt. }
  destruct (api.respond _ req) as [r|err] eqn:Hans.
  - by eapply Answered.
  - by eapply Refused.
Qed.

(** Rendering a reply calls nobody. *)
Lemma render_quiet (c : Command) v req r :
  Forall (fun ev => is_resolver_call ev = false /\ is_api_call ev = false)
    (snd (render c v req r)).
Proof.
  assert (forall l : list string,
    Forall (fun ev => is_resolver_call ev = false /\ is_api_call ev = false)
      (Write <$> l)) as Hwrites.
  { intros l. apply Forall_fmap, Forall_true. done. }
  assert (forall r, Forall
    (fun ev => is_resolver_call ev = false /\ is_api_call ev = false)
    (snd (match json_Marshal r with
          | inl data => (None, json_shape data)
          | inr err => (Some err, [])
          end))) as Hjson.
  { intros r'. destruct (json_Marshal r'); cbn; repeat constructor. }
  unfold render, describe_render, list_render, update_success.
  destruct c; cbn [json_set Globals].
  - destruct r; try (cbn [snd]; constructor).
    destruct (ftp.json c); [apply Hjson|].
    destruct (config.Verbose _); cbn [snd]; [apply Hwrites|].
    apply (Hwrites (_ :: _)).
  - destruct (config.Verbose _); cbn [snd].
    + unfold verbose_shape. constructor; [done|].
      apply Forall_app; split; [apply Hwrites | repeat constructor].
    + destruct (splunk.json c); [apply Hjson|]. cbn [snd].
      unfold table_shape. constructor; [done|].
      apply Forall_app; split; [| repeat constructor].
      apply Forall_fmap, Forall_true. done.
  - destruct (config.Verbose _); cbn [snd].
    + unfold verbose_shape. constructor; [done|].
      apply Forall_app; split; [apply Hwrites | repeat constructor].
    + destruct (datadog.json c); [apply Hjson|]. cbn [snd].
      unfold table_shape. constructor; [done|].
      apply Forall_app; split; [| repeat constructor].
      apply Forall_fmap, Forall_true. done.
  - destruct (config.Verbose _); cbn [snd].
    + unfold verbose_shape. constructor; [done|].
      apply Forall_app; split; [apply Hwrites | repeat constructor].
    + destruct (loggly.json c); [apply Hjson|]. cbn [snd].
      unfold table_shape. constructor; [done|].
      apply Forall_app; split; [| repeat constructor].
      apply Forall_fmap, Forall_true. done.
  - cbn [snd]. destruct req, r; repeat constructor.
Qed.

Lemma render_no_resolver_call (c : Command) v req r opts :
  CallServiceDetails opts ∉ snd (render c v req r).
Proof.
  intros Hin. pose proof (render_quiet c v req r) as Hq.
  rewrite Forall_forall in Hq. by destruct (Hq _ Hin).
Qed.

Lemma render_no_api_call (c : Command) v req r req' :
  CallAPI req' ∉ snd (render c v req r).
Proof.
  intros Hin. pose proof (render_quiet c v req r) as Hq.
  rewrite Forall_forall in Hq. by destruct (Hq _ Hin).
Qed.

Lemma api_error_entry_quiet (c : Command) sid v err :
  is_resolver_call (api_error_entry c sid v err) = false
  /\ is_api_call (api_error_entry c sid v err) = false.
Proof. by destruct c. Qed.

(** The resolver is called at most once, first, with [opts_of]. *)
Lemma resolver_call_in_trace (c : Command) opts :
  CallServiceDetails opts ∈ trace c ->
  opts = opts_of c /\ head (trace c) = Some (CallServiceDetails opts).
Proof.
  destruct (Exec_Course c) as [?|????|?????|??????|??????]; intros Hin.
  - by apply elem_of_nil in Hin.
  - apply elem_of_cons in Hin as [[= ->]|Hin]; [done|].
    apply elem_of_cons in Hin as [[=]|Hin]. by apply elem_of_nil in Hin.
  - apply elem_of_cons in Hin as [[= ->]|Hin]; [done|].
    apply elem_of_cons in Hin as [[=]|Hin]. by apply elem_of_nil in Hin.
  - apply elem_of_cons in Hin as [[= ->]|Hin]; [done|].
    apply elem_of_cons in Hin as [[=]|Hin].
    apply elem_of_cons in Hin as [Heq|Hin]; [|by apply elem_of_nil in Hin].
    destruct (api_error_entry_quiet c serviceID serviceVersion err) as [Hq _].
    by rewrite <- Heq in Hq.
  - apply elem_of_cons in Hin as [[= ->]|Hin]; [done|].
    apply elem_of_cons in Hin as [[=]|Hin].
    by apply render_no_resolver_call in Hin.
Qed.

(** A request appears in the trace only after the resolver resolved the
    service and the command built that request. *)
Lemma api_call_in_trace (c : Command) req :
  CallAPI req ∈ trace c ->
  exists serviceID serviceVersion,
    cmd_ServiceDetails_answer (opts_of c)
      = cmd.Resolved serviceID serviceVersion
    /\ request_of c serviceID serviceVersion = inl req.
Proof.
  destruct (Exec_Course c) as [?|????|?????|??????|??????]; intros Hin.
  - by apply elem_of_nil in Hin.
  - apply elem_of_cons in Hin as [[=]|Hin].
    apply elem_of_cons in Hin as [[=]|Hin]. by apply elem_of_nil in Hin.
  - apply elem_of_cons in Hin as [[=]|Hin].
    apply elem_of_cons in Hin as [[=]|Hin]. by apply elem_of_nil in Hin.
  - apply elem_of_cons in Hin as [[=]|Hin].
    apply elem_of_cons in Hin as [[= ->]|Hin]; [by eauto|].
    apply elem_of_cons in Hin as [Heq|Hin]; [|by apply elem_of_nil in Hin].
    destruct (api_error_entry_quiet c serviceID serviceVersion err) as [_ Hq].
    by rewrite <- Heq in Hq.
  - apply elem_of_cons in Hin as [[=]|Hin].
    apply elem_of_cons in Hin as [[= ->]|Hin]; [by eauto|].
    by apply render_no_api_call in Hin.
Qed.

Lemma quiet_is_no_update (ev : Event) :
  is_api_call ev = false -> is_update ev = false.
Proof. by destruct ev. Qed.

(** An update whose request cannot be built is turned down. *)
Lemma unbuilt_update_turned_down (u : snippet.UpdateCommand) (err : error) :
  (forall serviceID serviceVersion,
     request_of (SnippetUpdate u) serviceID serviceVersion = inr err) ->
  turned_down u err.
Proof.
  intros Hreq. split.
  - apply Forall_forall. intros ev Hin.
    destruct (is_update ev) eqn:Hup; [|done]. exfalso.
    destruct ev as [| req | | | | | | |]; try discriminate.
    apply api_call_in_trace in Hin as (sid & v & _ & Hbuilt).
    by rewrite Hreq in Hbuilt.
  - intros opts sid v Hin Hres.
    apply resolver_call_in_trace in Hin as [-> _].
    destruct (Exec_Course (SnippetUpdate u))
      as [Hg|???? Hr|????? Hb|?????? Hb ?|?????? Hb ?].
    + cbn [json_set] in Hg. by rewrite andb_false_r in Hg.
    + congruence.
    + rewrite Hreq in Hb. congruence.
    + by rewrite Hreq in Hb.
    + by rewrite Hreq in Hb.
Qed.

End Runs.

(** ** The flag check *)

Section Claims.
Context `{Collaborators}.

(** C1: for every command, when the global --verbose flag and the --json
    flag are both set, Exec returns the dedicated error for that
    combination and has done nothing before: its trace is empty, so
    neither the resolver nor any API method was called.  (The snippet
    update has no --json flag; there the premise never holds.) *)
Theorem verbose_json_fails_before_any_call (c : Command) :
  config.Verbose (Globals c) = true ->
  json_set c = true ->
  result c = Some ErrInvalidVerboseJSONCombo /\ trace c = [].
Proof.
  destruct c as [c|c|c|c|c]; cbn [Globals json_set]; intros Hv Hj;
    try discriminate.
  all: unfold result, trace; exec_unfold; rewrite Hv, Hj; split; reflexivity.
Qed.

(** The snippet update makes no such check: whatever its flags, it starts
    by calling the resolver. *)
Lemma update_calls_resolver_first (u : snippet.UpdateCommand) :
  head (trace (SnippetUpdate u))
  = Some (CallServiceDetails (opts_of (SnippetUpdate u))).
Proof. unfold trace. reflexivity. Qed.

(** ** The resolver's options *)

(** C4: a read-only command (list, describe) that reaches the resolver
    calls it with AllowActiveLocked set and no auto-clone flag; the
    snippet update calls it with AllowActiveLocked unset and hands it the
    user's --autoclone flag.  Unless the flag check turned the command
    down, the resolver is the first thing called. *)
Theorem resolver_options_by_command (c : Command) :
  (config.Verbose (Globals c) && json_set c = false ->
   exists opts, head (trace c) = Some (CallServiceDetails opts))
  /\ (forall opts, CallServiceDetails opts ∈ trace c ->
        match c with
        | SnippetUpdate u =>
            cmd.AllowActiveLocked opts = false
            /\ cmd.AutoCloneFlag opts = snippet.autoClone u
        | _ =>
            cmd.AllowActiveLocked opts = true
            /\ cmd.AutoCloneFlag opts = cmd.unset false
        end).
Proof.
  split.
  - intros Hguard. exists (opts_of c).
    destruct (Exec_Course c) as [Hg|????|?????|??????|??????];
      [congruence|done..].
  - intros opts Hin. apply resolver_call_in_trace in Hin as [-> _].
    by destruct c.
Qed.

(** ** Validation in the snippet update *)

(** C2: in versioned mode (--dynamic not set) a non-empty --snippet-id
    makes input construction fail with the message below; otherwise an
    empty --name makes it fail with the other message; either way no
    update request is sent and Exec returns that error. *)
Theorem versioned_update_validation (u : snippet.UpdateCommand) :
  cmd.WasSet (snippet.dynamic u) = false ->
  (snippet.snippetID u <> "" ->
     let err := errorString "error parsing arguments: --snippet-id is not supported when updating a versioned VCL snippet" in
     (forall serviceID serviceVersion,
        snippet.constructInput u serviceID serviceVersion = inr err)
     /\ turned_down u err)
  /\ (snippet.snippetID u = "" -> snippet.name u = "" ->
     let err := errorString "error parsing arguments: must provide --name to update a versioned VCL snippet" in
     (forall serviceID serviceVersion,
        snippet.constructInput u serviceID serviceVersion = inr err)
     /\ turned_down u err).
Proof.
  intros Hdyn. split.
  - intros Hid err.
    assert (forall sid v, snippet.constructInput u sid v = inr err) as Hc.
    { intros sid v. unfold snippet.constructInput.
      apply String.eqb_neq in Hid. by rewrite Hid. }
    split; [exact Hc|]. apply unbuilt_update_turned_down.
    intros sid v. cbn [request_of]. by rewrite Hdyn, Hc.
  - intros Hid Hname err.
    assert (forall sid v, snippet.constructInput u sid v = inr err) as Hc.
    { intros sid v. unfold snippet.constructInput.
      by rewrite Hid, Hname. }
    split; [exact Hc|]. apply unbuilt_update_turned_down.
    intros sid v. cbn [request_of]. by rewrite Hdyn, Hc.
Qed.

(** C3: in dynamic mode (--dynamic set) a --new-name that was set makes
    input construction fail with the first message below; otherwise an
    empty --snippet-id makes it fail with the second; otherwise the
    update is sent as an UpdateDynamicSnippet request.  The versioned
    UpdateSnippet method is never called in dynamic mode. *)
Theorem dynamic_update_validation (u : snippet.UpdateCommand) :
  cmd.WasSet (snippet.dynamic u) = true ->
  Forall (fun ev => is_versioned_update ev = false) (trace (SnippetUpdate u))
  /\ (cmd.WasSet (snippet.newName u) = true ->
     let err := errorString "error parsing arguments: --new-name is not supported when updating a dynamic VCL snippet" in
     (forall serviceID serviceVersion,
        snippet.constructDynamicInput u serviceID serviceVersion = inr err)
     /\ turned_down u err)
  /\ (cmd.WasSet (snippet.newName u) = false -> snippet.snippetID u = "" ->
     let err := errorString "error parsing arguments: must provide --snippet-id to update a dynamic VCL snippet" in
     (forall serviceID serviceVersion,
        snippet.constructDynamicInput u serviceID serviceVersion = inr err)
     /\ turned_down u err)
  /\ (cmd.WasSet (snippet.newName u) = false -> snippet.snippetID u <> "" ->
     forall opts serviceID serviceVersion,
       CallServiceDetails opts ∈ trace (SnippetUpdate u) ->
       cmd_ServiceDetails_answer opts
         = cmd.Resolved serviceID serviceVersion ->
       exists input,
         snippet.constructDynamicInput u serviceID
           (fastly.Number serviceVersion) = inl input
         /\ CallAPI (api.ReqUpdateDynamicSnippet input)
              ∈ trace (SnippetUpdate u)).
Proof.
  intros Hdyn. split; [|split; [|split]].
  - apply Forall_forall. intros ev Hin.
    destruct (is_versioned_update ev) eqn:Hup; [|done]. exfalso.
    destruct ev as [| req | | | | | | |]; try discriminate.
    destruct req; try discriminate.
    apply api_call_in_trace in Hin as (sid & v & _ & Hbuilt).
    cbn [request_of] in Hbuilt. rewrite Hdyn in Hbuilt.
    by destruct (snippet.constructDynamicInput u sid (fastly.Number v)).
  - intros Hnew err.
    assert (forall sid v, snippet.constructDynamicInput u sid v = inr err) as Hc.
    { intros sid v. unfold snippet.constructDynamicInput. by rewrite Hnew. }
    split; [exact Hc|]. apply unbuilt_update_turned_down.
    intros sid v. cbn [request_of]. by rewrite Hdyn, Hc.
  - intros Hnew Hid err.
    assert (forall sid v, snippet.constructDynamicInput u sid v = inr err) as Hc.
    { intros sid v. unfold snippet.constructDynamicInput. by rewrite Hnew, Hid. }
    split; [exact Hc|]. apply unbuilt_update_turned_down.
    intros sid v. cbn [request_of]. by rewrite Hdyn, Hc.
  - intros Hnew Hid opts sid v Hin Hres.
    apply resolver_call_in_trace in Hin as [-> _].
    assert (exists input,
      snippet.constructDynamicInput u sid (fastly.Number v) = inl input)
      as [input Hc].
    { unfold snippet.constructDynamicInput. apply String.eqb_neq in Hid.
      rewrite Hnew, Hid. eauto. }
    exists input. split; [exact Hc|].
    destruct (Exec_Course (SnippetUpdate u)) as [Hg|????|?????|??????|??????];
      [cbn [json_set] in Hg; by rewrite andb_false_r in Hg|..].
    all: match goal with
         | Hr : cmd_ServiceDetails_answer _ = _ |- _ => rewrite Hres in Hr
         end; try discriminate.
    all: match goal with Hr : cmd.Resolved _ _ = _ |- _ =>
           injection Hr as <- <- end.
    all: match goal with Hr : request_of _ _ _ = _ |- _ =>
           cbn [request_of] in Hr; rewrite Hdyn, Hc in Hr; cbn in Hr end;
      try discriminate.
    all: match goal with Hr : inl _ = inl _ |- _ => injection Hr as <- end.
    all: apply elem_of_cons; right; apply elem_of_cons; by left.
Qed.

(** ** Output *)

(** A run that sent a request and got a reply went on to render it. *)
Lemma answered_run (c : Command) opts req r rest :
  trace c = CallServiceDetails opts :: CallAPI req :: rest ->
  api.respond (config.APIClient (Globals c)) req = inl r ->
  exists serviceID serviceVersion,
    config.Verbose (Globals c) && json_set c = false
    /\ opts = opts_of c
    /\ cmd_ServiceDetails_answer opts = cmd.Resolved serviceID serviceVersion
    /\ request_of c serviceID serviceVersion = inl req
    /\ result c = fst (render c serviceVersion req r)
    /\ rest = snd (render c serviceVersion req r).
Proof.
  intros Htrace Hans.
  destruct (Exec_Course c)
    as [Hg|sid v err Hg Hr|sid v err Hg Hr Hb|sid v req' err Hg Hr Hb Ha
       |sid v req' r' Hg Hr Hb Ha]; try discriminate.
  - injection Htrace as _ Hq _. congruence.
  - injection Htrace as Ho Hq Hrest. subst.
    assert (r' = r) as -> by congruence.
    exists sid, v. done.
Qed.





(** ** Errors *)

(** An error of the resolver is logged with its context and returned. *)
Lemma resolver_error_logged (c : Command) opts serviceID serviceVersion err :
  CallServiceDetails opts ∈ trace c ->
  cmd_ServiceDetails_answer opts
    = cmd.ResolveFailed serviceID serviceVersion err ->
  result c = Some err
  /\ last (trace c)
     = Some (ErrLogAddWithContext err {[
         "Service ID" := str serviceID;
         "Service Version" := errors_ServiceVersion serviceVersion ]}).
Proof.
  intros Hin Hfail.
  pose proof (resolver_call_in_trace c opts Hin) as [-> _]. revert Hin.
  destruct (Exec_Course c)
    as [Hg|sid v err' Hg Hr|sid v err' Hg Hr Hb|sid v req' err' Hg Hr Hb Ha
       |sid v req' r' Hg Hr Hb Ha]; intros Hin; [| |congruence..].
  - by apply elem_of_nil in Hin.
  - rewrite Hfail in Hr. injection Hr as <- <- <-. done.
Qed.

(** An error of the API is logged and returned. *)
Lemma api_error_logged (c : Command) req err :
  CallAPI req ∈ trace c ->
  api.respond (config.APIClient (Globals c)) req = inr err ->
  result c = Some err
  /\ exists entry, last (trace c) = Some entry /\ logs entry err.
Proof.
  intros Hin Hfail.
  pose proof (api_call_in_trace c req Hin) as (sid0 & v0 & Hres & Hreq).
  revert Hin.
  destruct (Exec_Course c)
    as [Hg|sid v err' Hg Hr|sid v err' Hg Hr Hb|sid v req' err' Hg Hr Hb Ha
       |sid v req' r' Hg Hr Hb Ha]; intros Hin.
  - by apply elem_of_nil in Hin.
  - congruence.
  - rewrite Hres in Hr. injection Hr as <- <-. congruence.
  - rewrite Hres in Hr. injection Hr as <- <-.
    assert (req' = req) as -> by congruence.
    assert (err' = err) as -> by congruence.
    split; [done|]. eexists. split; [reflexivity|].
    unfold logs. destruct c; cbn; eauto.
  - rewrite Hres in Hr. injection Hr as <- <-.
    assert (req' = req) as -> by congruence. congruence.
Qed.

(** A reply is rendered with an error only when JSON was asked for and
    the encoder failed. *)
Lemma render_fails (c : Command) v req r err :
  config.Verbose (Globals c) && json_set c = false ->
  fst (render c v req r) = Some err ->
  config.Verbose (Globals c) = false /\ json_set c = true
  /\ json_Marshal r = inr err.
Proof.
  intros Hg. unfold render, describe_render, list_render.
  destruct c; cbn [json_set Globals] in *.
  - destruct r; try discriminate.
    destruct (ftp.json c); [|by destruct (config.Verbose _)].
    rewrite andb_true_r in Hg. rewrite Hg.
    destruct (json_Marshal _); [discriminate|]. by intros [= ->].
  - destruct (config.Verbose _); [discriminate|].
    destruct (splunk.json c); [|discriminate].
    destruct (json_Marshal _); [discriminate|]. by intros [= ->].
  - destruct (config.Verbose _); [discriminate|].
    destruct (datadog.json c); [|discriminate].
    destruct (json_Marshal _); [discriminate|]. by intros [= ->].
  - destruct (config.Verbose _); [discriminate|].
    destruct (loggly.json c); [|discriminate].
    destruct (json_Marshal _); [discriminate|]. by intros [= ->].
  - discriminate.
Qed.

(** Conversely, a failing encoder makes the rendering fail. *)
Lemma render_fails_on_encoder (c : Command) sid v req r err :
  request_of c sid v = inl req ->
  api.respond (config.APIClient (Globals c)) req = inl r ->
  config.Verbose (Globals c) = false -> json_set c = true ->
  json_Marshal r = inr err ->
  fst (render c v req r) = Some err.
Proof.
  intros Hreq Hans Hv Hj Hm. unfold render, describe_render, list_render.
  rewrite Hv, Hj.
  destruct c; cbn [json_set Globals] in *; try discriminate.
  2-4: by rewrite Hm.
  cbn [request_of] in Hreq. injection Hreq as <-. cbn [api.respond] in Hans.
  destruct (api.GetFTP _ _); [|discriminate]. injection Hans as <-.
  by rewrite Hm.
Qed.

(** C6, as the code has it: an error of the resolver or of a request is
    recorded in the error log, as the last thing Exec does, before Exec
    returns that very error (a resolver error with the Service ID and
    Service Version context fields).  Exec returns an error in those
    cases and in three more: when --verbose and --json are combined,
    when the snippet update cannot build its request, and when the JSON
    encoder fails. *)
Theorem errors_logged_then_returned (c : Command) :
  (forall opts serviceID serviceVersion err,
     CallServiceDetails opts ∈ trace c ->
     cmd_ServiceDetails_answer opts
       = cmd.ResolveFailed serviceID serviceVersion err ->
     result c = Some err
     /\ last (trace c)
        = Some (ErrLogAddWithContext err {[
            "Service ID" := str serviceID;
            "Service Version" := errors_ServiceVersion serviceVersion ]}))
  /\ (forall req err,
        CallAPI req ∈ trace c ->
        api.respond (config.APIClient (Globals c)) req = inr err ->
        result c = Some err
        /\ exists entry, last (trace c) = Some entry /\ logs entry err)
  /\ (forall err,
        result c = Some err <->
        (config.Verbose (Globals c) && json_set c = true
         /\ err = ErrInvalidVerboseJSONCombo)
        \/ (exists opts serviceID serviceVersion,
              CallServiceDetails opts ∈ trace c
              /\ cmd_ServiceDetails_answer opts
                 = cmd.ResolveFailed serviceID serviceVersion err)
        \/ (exists req,
              CallAPI req ∈ trace c
              /\ api.respond (config.APIClient (Globals c)) req = inr err)
        \/ (exists opts serviceID serviceVersion,
              CallServiceDetails opts ∈ trace c
              /\ cmd_ServiceDetails_answer opts
                 = cmd.Resolved serviceID serviceVersion
              /\ request_of c serviceID serviceVersion = inr err)
        \/ (exists req r,
              CallAPI req ∈ trace c
              /\ api.respond (config.APIClient (Globals c)) req = inl r
              /\ config.Verbose (Globals c) = false /\ json_set c = true
              /\ json_Marshal r = inr err)).
Proof.
  split; [|split].
  - intros opts sid v err. apply resolver_error_logged.
  - intros req err. apply api_error_logged.
  - intros err. split.
    + destruct (Exec_Course c)
        as [Hg|sid v err' Hg Hr|sid v err' Hg Hr Hb|sid v req' err' Hg Hr Hb Ha
           |sid v req' r' Hg Hr Hb Ha].
      * intros [= <-]. by left.
      * intros [= <-]. right; left. exists (opts_of c), sid, v.
        split; [apply elem_of_cons; by left | done].
      * intros [= <-]. do 3 right; left. exists (opts_of c), sid, v.
        split; [apply elem_of_cons; by left | done].
      * intros [= <-]. do 2 right; left. exists req'.
        split; [|done]. apply elem_of_cons; right. apply elem_of_cons; by left.
      * intros Hfail. do 4 right. exists req', r'.
        split; [apply elem_of_cons; right; apply elem_of_cons; by left|].
        split; [done|]. eapply render_fails; eauto.
    + intros [[Hg ->]|[(opts & sid & v & Hin & Hfail)
               |[(req & Hin & Hfail)
               |[(opts & sid & v & Hin & Hres & Hbuilt)
               |(req & r & Hin & Hans & Hv & Hj & Hm)]]]].
      * destruct (Exec_Course c); [done|congruence..].
      * by eapply resolver_error_logged.
      * by eapply api_error_logged.
      * pose proof (resolver_call_in_trace c opts Hin) as [-> _].
        destruct (Exec_Course c)
          as [Hg|sid' v' err' Hg Hr|sid' v' err' Hg Hr Hb
             |sid' v' req' err' Hg Hr Hb Ha|sid' v' req' r' Hg Hr Hb Ha].
        -- by apply elem_of_nil in Hin.
        -- congruence.
        -- rewrite Hres in Hr. injection Hr as <- <-. congruence.
        -- rewrite Hres in Hr. injection Hr as <- <-. congruence.
        -- rewrite Hres in Hr. injection Hr as <- <-. congruence.
      * pose proof (api_call_in_trace c req Hin) as (sid & v & Hres & Hreq).
        revert Hin.
        destruct (Exec_Course c)
          as [Hg|sid' v' err' Hg Hr|sid' v' err' Hg Hr Hb
             |sid' v' req' err' Hg Hr Hb Ha|sid' v' req' r' Hg Hr Hb Ha];
          intros Hin.
        -- by apply elem_of_nil in Hin.
        -- congruence.
        -- rewrite Hres in Hr. injection Hr as <- <-. congruence.
        -- rewrite Hres in Hr. injection Hr as <- <-.
           assert (req' = req) as -> by congruence. congruence.
        -- rewrite Hres in Hr. injection Hr as <- <-.
           assert (req' = req) as -> by congruence.
           assert (r' = r) as -> by congruence.
           by eapply render_fails_on_encoder.
Qed.

(** ** What the dynamic update leaves out *)

Lemma dynamic_course_ignores (u : snippet.UpdateCommand) name priority location :
  cmd.WasSet (snippet.dynamic u) = true ->
  course (SnippetUpdate (with_name_priority_type u name priority location))
  = course (SnippetUpdate u).
Proof.
  intros Hdyn.
  unfold course, opts_of, request_of, render, api_error_entry, Globals,
    json_set, with_name_priority_type.
  cbn [snippet.Globals snippet.autoClone snippet.manifest snippet.serviceName
       snippet.serviceVersion snippet.dynamic].
  rewrite Hdyn. reflexivity.
Qed.

(** C8: in dynamic mode the resolved service version does not reach the
    input of the dynamic update, which holds the snippet ID, the service
    ID and, when --content was given, the content; and the flags --name,
    --priority and --type change nothing: with any values for them, input
    construction and the whole run come out the same. *)
Theorem dynamic_update_ignores_version_name_priority_type
    (u : snippet.UpdateCommand) name priority location :
  cmd.WasSet (snippet.dynamic u) = true ->
  (forall serviceID v v',
     snippet.constructDynamicInput
       (with_name_priority_type u name priority location) serviceID v'
     = snippet.constructDynamicInput u serviceID v)
  /\ (forall serviceID v input,
        snippet.constructDynamicInput u serviceID v = inl input ->
        input = {|
          fastly.UpdateDynamicSnippetInput.ServiceID := serviceID;
          fastly.UpdateDynamicSnippetInput.ID := snippet.snippetID u;
          fastly.UpdateDynamicSnippetInput.Content :=
            if cmd.WasSet (snippet.content u)
            then Some (cmd_Content (cmd.Value (snippet.content u)))
            else None |})
  /\ (forall req,
        CallAPI req ∈ trace (SnippetUpdate u) -> api.version_of req = None)
  /\ result (SnippetUpdate (with_name_priority_type u name priority location))
     = result (SnippetUpdate u)
  /\ trace (SnippetUpdate (with_name_priority_type u name priority location))
     = trace (SnippetUpdate u).
Proof.
  intros Hdyn. split; [|split; [|split; [|split]]].
  - reflexivity.
  - intros sid v input. unfold snippet.constructDynamicInput.
    destruct (cmd.WasSet (snippet.newName u)); [discriminate|].
    destruct (String.eqb (snippet.snippetID u) ""); [discriminate|].
    intros [= <-]. by destruct (cmd.WasSet (snippet.content u)).
  - intros req Hin.
    apply api_call_in_trace in Hin as (sid & v & _ & Hbuilt).
    cbn [request_of] in Hbuilt. rewrite Hdyn in Hbuilt.
    destruct (snippet.constructDynamicInput u sid (fastly.Number v));
      [|discriminate].
    by injection Hbuilt as <-.
  - unfold result. rewrite !Exec_course.
    by rewrite dynamic_course_ignores.
  - unfold trace. rewrite !Exec_course.
    by rewrite dynamic_course_ignores.
Qed.

End Claims.

(** ** Determinism of input construction *)

Section Sending.
Context `{Collaborators}.

(** Once the service is resolved and the request built, it is sent. *)
Lemma request_is_sent (c : Command) serviceID serviceVersion req :
  config.Verbose (Globals c) && json_set c = false ->
  cmd_ServiceDetails_answer (opts_of c)
    = cmd.Resolved serviceID serviceVersion ->
  request_of c serviceID serviceVersion = inl req ->
  CallAPI req ∈ trace c.
Proof.
  intros Hguard Hres Hbuilt.
  destruct (Exec_Course c)
    as [Hg|sid v err Hg Hr|sid v err Hg Hr Hb|sid v req' err Hg Hr Hb Ha
       |sid v req' r' Hg Hr Hb Ha].
  - congruence.
  - congruence.
  - rewrite Hres in Hr. injection Hr as <- <-. congruence.
  - rewrite Hres in Hr. injection Hr as <- <-.
    assert (req' = req) as -> by congruence.
    apply elem_of_cons; right. apply elem_of_cons; by left.
  - rewrite Hres in Hr. injection Hr as <- <-.
    assert (req' = req) as -> by congruence.
    apply elem_of_cons; right. apply elem_of_cons; by left.
Qed.

End Sending.

(** Two runs in which [cmd.Content] gives the same text for the value of
    --content build the same input from the same arguments. *)
Lemma construction_agrees (run1 run2 : Collaborators)
    (u : snippet.UpdateCommand) (serviceID : string) (n : Z) :
  (cmd.WasSet (snippet.content u) = true ->
   @cmd_Content run1 (cmd.Value (snippet.content u))
   = @cmd_Content run2 (cmd.Value (snippet.content u))) ->
  @snippet.constructInput run1 u serviceID n
  = @snippet.constructInput run2 u serviceID n
  /\ @snippet.constructDynamicInput run1 u serviceID n
     = @snippet.constructDynamicInput run2 u serviceID n.
Proof.
  intros Hcontent.
  unfold snippet.constructInput, snippet.constructDynamicInput.
  destruct (cmd.WasSet (snippet.content u)); [|done].
  by rewrite Hcontent.
Qed.

(** C7, as the code has it: the input is built from the flags and from
    the service ID and version number that the resolver handed back.
    For a fixed assignment of flag values, two runs in which the resolver
    gives the command the same answer, and in which cmd.Content gives the
    same text for the value of --content when that flag was set, build
    the same input struct (or the same error) in constructInput and in
    constructDynamicInput, and send the same update request. *)
Theorem input_construction_deterministic (run1 run2 : Collaborators)
    (u : snippet.UpdateCommand) :
  (forall opts,
     CallServiceDetails opts ∈ @trace run1 (SnippetUpdate u) ->
     @cmd_ServiceDetails_answer run1 opts
     = @cmd_ServiceDetails_answer run2 opts) ->
  (cmd.WasSet (snippet.content u) = true ->
   @cmd_Content run1 (cmd.Value (snippet.content u))
   = @cmd_Content run2 (cmd.Value (snippet.content u))) ->
  (forall serviceID serviceVersion,
     @snippet.constructInput run1 u serviceID serviceVersion
     = @snippet.constructInput run2 u serviceID serviceVersion
     /\ @snippet.constructDynamicInput run1 u serviceID serviceVersion
        = @snippet.constructDynamicInput run2 u serviceID serviceVersion)
  /\ (forall req,
        CallAPI req ∈ @trace run1 (SnippetUpdate u)
        <-> CallAPI req ∈ @trace run2 (SnippetUpdate u)).
Proof.
  intros Hresolver Hcontent.
  pose proof (fun sid n => construction_agrees run1 run2 u sid n Hcontent)
    as Hsame.
  split; [exact Hsame|].
  assert (@cmd_ServiceDetails_answer run1 (opts_of (SnippetUpdate u))
          = @cmd_ServiceDetails_answer run2 (opts_of (SnippetUpdate u)))
    as Hanswer.
  { apply Hresolver.
    apply head_Some_elem_of, (@update_calls_resolver_first run1). }
  assert (forall sid v,
            @request_of run1 (SnippetUpdate u) sid v
            = @request_of run2 (SnippetUpdate u) sid v) as Hrequest.
  { intros sid v. cbn [request_of].
    destruct (Hsame sid (fastly.Number v)) as [-> ->]. done. }
  assert (config.Verbose (Globals (SnippetUpdate u))
          && json_set (SnippetUpdate u) = false) as Hguard.
  { cbn [json_set]. apply andb_false_r. }
  intros req. split; intros Hin.
  - apply (@api_call_in_trace run1) in Hin as (sid & v & Hres & Hbuilt).
    apply (@request_is_sent run2 _ sid v); [exact Hguard| |].
    + by rewrite <- Hanswer.
    + by rewrite <- Hrequest.
  - apply (@api_call_in_trace run2) in Hin as (sid & v & Hres & Hbuilt).
    apply (@request_is_sent run1 _ sid v); [exact Hguard| |].
    + by rewrite Hanswer.
    + by rewrite Hrequest.
Qed.

(** ** The properties at work on the sample environment *)

Lemma verbose_json_fails_witness :
  config.Verbose (Globals (FTPDescribe (sample.describe sample.client true true)))
    = true
  /\ json_set (FTPDescribe (sample.describe sample.client true true)) = true
  /\ @result sample.world
       (FTPDescribe (sample.describe sample.client true true))
     = Some ErrInvalidVerboseJSONCombo
  /\ @trace sample.world
       (FTPDescribe (sample.describe sample.client true true)) = [].
Proof.
  split; [reflexivity|]. split; [reflexivity|].
  apply (@verbose_json_fails_before_any_call sample.world); reflexivity.
Defined.

Lemma versioned_update_validation_witness :
  cmd.WasSet (snippet.dynamic sample.with_snippet_id) = false
  /\ snippet.snippetID sample.with_snippet_id <> ""
  /\ @result sample.world (SnippetUpdate sample.with_snippet_id)
     = Some (errorString "error parsing arguments: --snippet-id is not supported when updating a versioned VCL snippet").
Proof.
  assert (cmd.WasSet (snippet.dynamic sample.with_snippet_id) = false)
    as Hdyn by reflexivity.
  assert (snippet.snippetID sample.with_snippet_id <> "") as Hid
    by discriminate.
  split; [exact Hdyn|]. split; [exact Hid|].
  destruct (@versioned_update_validation sample.world
              sample.with_snippet_id Hdyn) as [Hfirst _].
  destruct (Hfirst Hid) as [_ [_ Hreturned]].
  eapply Hreturned; [|reflexivity].
  apply head_Some_elem_of, (@update_calls_resolver_first sample.world).
Defined.

Lemma dynamic_update_validation_witness :
  cmd.WasSet (snippet.dynamic sample.dynamic_by_id) = true
  /\ Forall (fun ev => is_versioned_update ev = false)
       (@trace sample.world (SnippetUpdate sample.dynamic_by_id))
  /\ CallAPI (api.ReqUpdateDynamicSnippet {|
         fastly.UpdateDynamicSnippetInput.ServiceID := "SU1Z0isxPaozGVKXdv0eY";
         fastly.UpdateDynamicSnippetInput.ID := "7Gs0qBqAmTfqpgtLJlJ5lr";
         fastly.UpdateDynamicSnippetInput.Content := None |})
     ∈ @trace sample.world (SnippetUpdate sample.dynamic_by_id).
Proof.
  assert (cmd.WasSet (snippet.dynamic sample.dynamic_by_id) = true)
    as Hdyn by reflexivity.
  split; [exact Hdyn|].
  destruct (@dynamic_update_validation sample.world
              sample.dynamic_by_id Hdyn) as (Hnever & _ & _ & Hsent).
  split; [exact Hnever|].
  destruct (Hsent eq_refl ltac:(discriminate)
              (@opts_of (SnippetUpdate sample.dynamic_by_id))
              "SU1Z0isxPaozGVKXdv0eY" sample.version)
    as (input & Hbuilt & Hin).
  - apply head_Some_elem_of, (@update_calls_resolver_first sample.world).
  - reflexivity.
  - injection Hbuilt as <-. exact Hin.
Defined.




Lemma dynamic_update_ignores_witness :
  cmd.WasSet (snippet.dynamic sample.dynamic_by_id) = true
  /\ @trace sample.world
       (SnippetUpdate (with_name_priority_type sample.dynamic_by_id
          "pass" (sample.flag 10) (sample.flag "recv")))
     = @trace sample.world (SnippetUpdate sample.dynamic_by_id).
Proof.
  split; [reflexivity|].
  apply (@dynamic_update_ignores_version_name_priority_type sample.world
           sample.dynamic_by_id "pass" (sample.flag 10) (sample.flag "recv")
           eq_refl).
Defined.

Lemma input_construction_deterministic_witness :
  @cmd_Content (sample.on_disk sample.disk1)
    (cmd.Value (snippet.content sample.from_file))
  = @cmd_Content (sample.on_disk sample.disk3)
      (cmd.Value (snippet.content sample.from_file))
  /\ @snippet.constructInput (sample.on_disk sample.disk1)
       sample.from_file "SU1Z0isxPaozGVKXdv0eY" 3
     = @snippet.constructInput (sample.on_disk sample.disk3)
         sample.from_file "SU1Z0isxPaozGVKXdv0eY" 3.
Proof.
  assert (@cmd_Content (sample.on_disk sample.disk1)
            (cmd.Value (snippet.content sample.from_file))
          = @cmd_Content (sample.on_disk sample.disk3)
              (cmd.Value (snippet.content sample.from_file))) as Hsame
    by (vm_compute; reflexivity).
  split; [exact Hsame|].
  apply (@input_construction_deterministic
           (sample.on_disk sample.disk1) (sample.on_disk sample.disk3)
           sample.from_file (fun _ _ => eq_refl) (fun _ => Hsame)).
Defined.

(** ** Where the specification says more than the code does *)

(** The same flags in two runs: the resolver hands back version 3 in the
    first and version 4 in the second, and the input, hence the request,
    names the one and the other. *)
Lemma resolved_version_reaches_the_input :
  @trace fixture.first_run (SnippetUpdate fixture.latest)
  = [CallServiceDetails (opts_of (SnippetUpdate fixture.latest));
     CallAPI (api.ReqUpdateSnippet {|
       fastly.UpdateSnippetInput.ServiceID := "SU1Z0isxPaozGVKXdv0eY";
       fastly.UpdateSnippetInput.ServiceVersion := 3;
       fastly.UpdateSnippetInput.Name := "pass";
       fastly.UpdateSnippetInput.NewName := Some "skip";
       fastly.UpdateSnippetInput.Priority := None;
       fastly.UpdateSnippetInput.Content := None;
       fastly.UpdateSnippetInput.Type_ := None |});
     Success "Updated VCL snippet 'skip' (previously: 'pass', service: SU1Z0isxPaozGVKXdv0eY, version: 3, type: recv, priority: 100)"]
  /\ @trace fixture.second_run (SnippetUpdate fixture.latest)
     = [CallServiceDetails (opts_of (SnippetUpdate fixture.latest));
        CallAPI (api.ReqUpdateSnippet {|
          fastly.UpdateSnippetInput.ServiceID := "SU1Z0isxPaozGVKXdv0eY";
          fastly.UpdateSnippetInput.ServiceVersion := 4;
          fastly.UpdateSnippetInput.Name := "pass";
          fastly.UpdateSnippetInput.NewName := Some "skip";
          fastly.UpdateSnippetInput.Priority := None;
          fastly.UpdateSnippetInput.Content := None;
          fastly.UpdateSnippetInput.Type_ := None |});
        Success "Updated VCL snippet 'skip' (previously: 'pass', service: SU1Z0isxPaozGVKXdv0eY, version: 4, type: recv, priority: 100)"]
  /\ @snippet.constructInput fixture.first_run fixture.latest
       "SU1Z0isxPaozGVKXdv0eY" 3
     <> @snippet.constructInput fixture.second_run fixture.latest
          "SU1Z0isxPaozGVKXdv0eY" 4.
Proof. split; [reflexivity|]. split; [reflexivity|]. discriminate. Qed.


(** With --verbose and --json combined Exec returns an error although no
    collaborator failed: none was called. *)
Lemma flag_check_error_without_collaborator_error :
  ~ (is_Some (@result sample.world
                (FTPDescribe (sample.describe sample.client true true)))
     <-> @collaborator_failed sample.world
           (FTPDescribe (sample.describe sample.client true true))).
Proof.
  intros [Hfails _].
  destruct Hfails as [(opts & sid & v & err & Hin & _)|(req & err & Hin & _)].
  - by eexists.
  - by apply elem_of_nil in Hin.
  - by apply elem_of_nil in Hin.
Qed.

(** ** More on what a run calls *)

Section Calls.
Context `{Collaborators}.

Lemma quiet_occurrences (t : list Event) :
  Forall (fun ev => is_resolver_call ev = false /\ is_api_call ev = false) t ->
  occurrences is_resolver_call t = 0%nat /\ occurrences is_api_call t = 0%nat.
Proof.
  unfold occurrences. induction 1 as [|ev t [Hr Ha] _ [IHr IHa]]; [done|].
  cbn [List.filter]. by rewrite Hr, Ha.
Qed.

(** What input construction yields when it succeeds. *)
Lemma constructInput_inl (u : snippet.UpdateCommand) sid n input :
  snippet.constructInput u sid n = inl input ->
  snippet.snippetID u = "" /\ snippet.name u <> ""
  /\ input = {|
       fastly.UpdateSnippetInput.ServiceID := sid;
       fastly.UpdateSnippetInput.ServiceVersion := n;
       fastly.UpdateSnippetInput.Name := snippet.name u;
       fastly.UpdateSnippetInput.NewName :=
         if cmd.WasSet (snippet.newName u)
         then Some (cmd.Value (snippet.newName u)) else None;
       fastly.UpdateSnippetInput.Priority :=
         if cmd.WasSet (snippet.priority u)
         then Some (cmd.Value (snippet.priority u)) else None;
       fastly.UpdateSnippetInput.Content :=
         if cmd.WasSet (snippet.content u)
         then Some (cmd_Content (cmd.Value (snippet.content u))) else None;
       fastly.UpdateSnippetInput.Type_ :=
         if cmd.WasSet (snippet.location u)
         then Some (cmd.Value (snippet.location u)) else None |}.
Proof.
  unfold snippet.constructInput.
  destruct (String.eqb (snippet.snippetID u) "") eqn:Hid; [|discriminate].
  destruct (String.eqb (snippet.name u) "") eqn:Hname; [discriminate|].
  apply String.eqb_eq in Hid. apply String.eqb_neq in Hname.
  cbn [negb]. intros [= <-]. split; [done|]. split; [done|].
  by destruct (cmd.WasSet (snippet.newName u)),
    (cmd.WasSet (snippet.priority u)), (cmd.WasSet (snippet.content u)),
    (cmd.WasSet (snippet.location u)).
Qed.

Lemma constructDynamicInput_inl (u : snippet.UpdateCommand) sid n input :
  snippet.constructDynamicInput u sid n = inl input ->
  cmd.WasSet (snippet.newName u) = false /\ snippet.snippetID u <> ""
  /\ input = {|
       fastly.UpdateDynamicSnippetInput.ServiceID := sid;
       fastly.UpdateDynamicSnippetInput.ID := snippet.snippetID u;
       fastly.UpdateDynamicSnippetInput.Content :=
         if cmd.WasSet (snippet.content u)
         then Some (cmd_Content (cmd.Value (snippet.content u))) else None |}.
Proof.
  unfold snippet.constructDynamicInput.
  destruct (cmd.WasSet (snippet.newName u)); [discriminate|].
  destruct (String.eqb (snippet.snippetID u) "") eqn:Hid; [discriminate|].
  apply String.eqb_neq in Hid. intros [= <-]. split; [done|]. split; [done|].
  by destruct (cmd.WasSet (snippet.content u)).
Qed.

(** X1: a run calls the resolver at most once and sends at most one
    request; a request is sent only right after the resolver has resolved
    the service, as the second thing the run does. *)
Theorem at_most_one_resolution_and_request (c : Command) :
  (occurrences is_resolver_call (trace c) <= 1)%nat
  /\ (occurrences is_api_call (trace c) <= 1)%nat
  /\ (forall req, CallAPI req ∈ trace c ->
      exists opts serviceID serviceVersion rest,
        trace c = CallServiceDetails opts :: CallAPI req :: rest
        /\ cmd_ServiceDetails_answer opts
           = cmd.Resolved serviceID serviceVersion).
Proof.
  split; [|split].
  - destruct (Exec_Course c) as [?|????|?????|??????|??????]; cbn; try lia.
    + destruct (api_error_entry_quiet c serviceID serviceVersion err) as [-> _].
      cbn. lia.
    + destruct (quiet_occurrences _
        (render_quiet c serviceVersion req r)) as [Hr _].
      unfold occurrences in Hr. rewrite Hr. lia.
  - destruct (Exec_Course c) as [?|????|?????|??????|??????]; cbn; try lia.
    + destruct (api_error_entry_quiet c serviceID serviceVersion err) as [_ ->].
      cbn. lia.
    + destruct (quiet_occurrences _
        (render_quiet c serviceVersion req r)) as [_ Ha].
      unfold occurrences in Ha. rewrite Ha. lia.
  - intros req Hin.
    destruct (Exec_Course c)
      as [Hg|sid v err Hg Hr|sid v err Hg Hr Hb|sid v req' err Hg Hr Hb Ha
         |sid v req' r' Hg Hr Hb Ha].
    + by apply elem_of_nil in Hin.
    + apply elem_of_cons in Hin as [[=]|Hin].
      apply elem_of_cons in Hin as [[=]|Hin]. by apply elem_of_nil in Hin.
    + apply elem_of_cons in Hin as [[=]|Hin].
      apply elem_of_cons in Hin as [[=]|Hin]. by apply elem_of_nil in Hin.
    + apply elem_of_cons in Hin as [[=]|Hin].
      apply elem_of_cons in Hin as [[= ->]|Hin]; [by eauto 8|].
      apply elem_of_cons in Hin as [Heq|Hin]; [|by apply elem_of_nil in Hin].
      destruct (api_error_entry_quiet c sid v err) as [_ Hq].
      by rewrite <- Heq in Hq.
    + apply elem_of_cons in Hin as [[=]|Hin].
      apply elem_of_cons in Hin as [[= ->]|Hin]; [by eauto 8|].
      by apply render_no_api_call in Hin.
Qed.

(** X2: every request of a run is of the command's own kind; in
    particular a read-only command (list, describe) never sends an update
    request. *)
Theorem only_own_requests (c : Command) (req : api.Request) :
  CallAPI req ∈ trace c ->
  own_request c req = true
  /\ (read_only c = true -> is_update (CallAPI req) = false).
Proof.
  intros Hin. apply api_call_in_trace in Hin as (sid & v & _ & Hbuilt).
  destruct c; cbn [request_of] in Hbuilt.
  1-4: by injection Hbuilt as <-.
  destruct (cmd.WasSet (snippet.dynamic c)).
  - destruct (snippet.constructDynamicInput _ _ _); [|discriminate].
    by injection Hbuilt as <-.
  - destruct (snippet.constructInput _ _ _); [|discriminate].
    by injection Hbuilt as <-.
Qed.

(** X3: a request goes to the service the resolver resolved and, where it
    names a version, to the number of the version the resolver handed
    back (for the update, the version after a possible auto-clone); the
    describe request asks for the endpoint named by --name. *)
Theorem request_names_resolved_service (c : Command) opts req serviceID
    serviceVersion :
  CallServiceDetails opts ∈ trace c ->
  CallAPI req ∈ trace c ->
  cmd_ServiceDetails_answer opts = cmd.Resolved serviceID serviceVersion ->
  service_of req = serviceID
  /\ (forall n, api.version_of req = Some n -> n = fastly.Number serviceVersion)
  /\ (is_dynamic_update (CallAPI req) = false ->
      api.version_of req = Some (fastly.Number serviceVersion))
  /\ (forall d i, c = FTPDescribe d -> req = api.ReqGetFTP i ->
      fastly.GetFTPInput.Name i = fastly.GetFTPInput.Name (ftp.Input d)).
Proof.
  intros Hres Hreq Hanswer.
  apply resolver_call_in_trace in Hres as [-> _].
  apply api_call_in_trace in Hreq as (sid & v & Hanswer' & Hbuilt).
  rewrite Hanswer in Hanswer'. injection Hanswer' as <- <-.
  destruct c; cbn [request_of] in Hbuilt.
  1-4: injection Hbuilt as <-; repeat split; try done;
       try (by intros n [= <-]).
  - intros d i [= <-] [= <-]. done.
  - destruct (cmd.WasSet (snippet.dynamic c)).
    + destruct (snippet.constructDynamicInput _ _ _) as [input|] eqn:Hc;
        [|discriminate].
      injection Hbuilt as <-.
      apply constructDynamicInput_inl in Hc as (_ & _ & ->). done.
    + destruct (snippet.constructInput _ _ _) as [input|] eqn:Hc;
        [|discriminate].
      injection Hbuilt as <-.
      apply constructInput_inl in Hc as (_ & _ & ->).
      repeat split; try done. by intros n [= <-].
Qed.

(** X4: the resolver is told the command's manifest, its --service-name
    and --version flags and the global verbose flag, unchanged. *)
Theorem resolver_sees_flags_unchanged (c : Command) opts :
  CallServiceDetails opts ∈ trace c ->
  cmd.Manifest opts = manifest_of c
  /\ cmd.ServiceNameFlag opts = serviceName_of c
  /\ cmd.ServiceVersionFlag opts = serviceVersion_of c
  /\ cmd.VerboseMode opts = config.Verbose_ (config.Flag_ (Globals c)).
Proof.
  intros Hin. apply resolver_call_in_trace in Hin as [-> _]. by destruct c.
Qed.

End Calls.

(** ** More on output and errors *)

Section Outcomes.
Context `{Collaborators}.

Lemma writes_are_output (l : list string) :
  Forall (fun ev => is_output ev = true) (Write <$> l).
Proof. apply Forall_fmap, Forall_true. done. Qed.

(** A reply is either rendered, with some output, or turned into an error
    with none. *)
Lemma render_outcome (c : Command) sid v req r :
  request_of c sid v = inl req ->
  api.respond (config.APIClient (Globals c)) req = inl r ->
  (exists err, render c v req r = (Some err, []))
  \/ (fst (render c v req r) = None
      /\ snd (render c v req r) <> []
      /\ Forall (fun ev => is_output ev = true) (snd (render c v req r))).
Proof.
  assert (forall r',
    (exists err, match json_Marshal r' with
                 | inl data => (None, json_shape data)
                 | inr err => (Some err, [])
                 end = (Some err, []))
    \/ (fst (match json_Marshal r' with
             | inl data => (None, json_shape data)
             | inr err => (Some err, [])
             end) = @None error
        /\ snd (match json_Marshal r' with
                | inl data => (None, json_shape data)
                | inr err => (@Some error err, [])
                end) <> []
        /\ Forall (fun ev => is_output ev = true)
             (snd (match json_Marshal r' with
                   | inl data => (@None error, json_shape data)
                   | inr err => (Some err, [])
                   end)))) as Hjson.
  { intros r'. destruct (json_Marshal r'); [right|left; by eexists].
    cbn. repeat split; [done|]. by repeat constructor. }
  assert (forall N r',
    fst (list_render (config.Verbose (Globals c)) (json_set c) N r') = None
    /\ snd (list_render (config.Verbose (Globals c)) (json_set c) N r') <> []
    /\ Forall (fun ev => is_output ev = true)
         (snd (list_render (config.Verbose (Globals c)) (json_set c) N r'))
    \/ exists err,
         list_render (config.Verbose (Globals c)) (json_set c) N r'
         = (Some err, [])) as Hlist.
  { intros N r'. unfold list_render.
    destruct (config.Verbose (Globals c)).
    - left. cbn [fst snd]. unfold verbose_shape. repeat split; [done|].
      constructor; [done|]. apply Forall_app. split;
        [apply writes_are_output | by repeat constructor].
    - destruct (json_set c).
      + destruct (Hjson r') as [?|?]; [by right|by left].
      + left. cbn [fst snd]. unfold table_shape. repeat split; [done|].
        constructor; [done|]. apply Forall_app. split;
          [|by repeat constructor].
        apply Forall_fmap, Forall_true. done. }
  intros Hreq Hans. destruct c; cbn [request_of] in Hreq.
  - injection Hreq as <-. cbn [api.respond] in Hans.
    destruct (api.GetFTP _ _) as [f|]; [|discriminate]. injection Hans as <-.
    cbn [render describe_render json_set Globals].
    destruct (ftp.json c); [apply Hjson|]. right.
    destruct (config.Verbose _); cbn [fst snd]; repeat split; try done.
    + apply writes_are_output.
    + apply (writes_are_output (_ :: _)).
  - cbn [render]. destruct (Hlist (fastly.Number v) r); [by right|by left].
  - cbn [render]. destruct (Hlist (fastly.Number v) r); [by right|by left].
  - cbn [render]. destruct (Hlist (fastly.Number v) r); [by right|by left].
  - right. cbn [render fst snd]. destruct (cmd.WasSet (snippet.dynamic c)).
    + destruct (snippet.constructDynamicInput _ _ _); [|discriminate].
      injection Hreq as <-. cbn [api.respond] in Hans.
      destruct (api.UpdateDynamicSnippet _ _); [|discriminate].
      injection Hans as <-. cbn. repeat split; [done|]. by repeat constructor.
    + destruct (snippet.constructInput _ _ _); [|discriminate].
      injection Hreq as <-. cbn [api.respond] in Hans.
      destruct (api.UpdateSnippet _ _); [|discriminate].
      injection Hans as <-. cbn. repeat split; [done|]. by repeat constructor.
Qed.

(** X5: Exec puts something on [out] exactly when it succeeds: a run that
    returns an error has written nothing (no line, no table row, no
    success message), and a run that returns nil has written something
    and left the error log alone. *)
Theorem output_exactly_on_success (c : Command) :
  (forall err, result c = Some err ->
     Forall (fun ev => is_output ev = false) (trace c))
  /\ (result c = None ->
      Exists (fun ev => is_output ev = true) (trace c)
      /\ Forall (fun ev => is_errlog ev = false) (trace c)).
Proof.
  destruct (Exec_Course c)
    as [Hg|sid v err Hg Hr|sid v err Hg Hr Hb|sid v req err Hg Hr Hb Ha
       |sid v req r Hg Hr Hb Ha].
  1-3: split; [intros; by repeat constructor | discriminate].
  - split; [|discriminate]. intros ? _.
    repeat (constructor; [by destruct c|]). constructor.
  - destruct (render_outcome c sid v req r Hb Ha)
      as [[err Hfail]|(Hnone & Hsome & Hout)].
    + rewrite Hfail. cbn [fst snd].
      split; [intros; by repeat constructor | discriminate].
    + rewrite Hnone. split; [discriminate|]. intros _. split.
      * do 2 apply Exists_cons_tl.
        destruct (snd (render c v req r)) as [|ev t]; [done|].
        apply Exists_cons_hd. by inversion Hout.
      * do 2 (constructor; [done|]).
        eapply Forall_impl; [exact Hout|]. intros ev. by destruct ev.
Qed.

(** X6: with --json (verbose off) the describe command puts out the JSON
    text of the endpoint and nothing else: none of the field lines. *)
Theorem describe_json_output (c : ftp.DescribeCommand) opts req f rest data :
  ftp.json c = true ->
  trace (FTPDescribe c) = CallServiceDetails opts :: CallAPI req :: rest ->
  api.respond (config.APIClient (ftp.Globals c)) req = inl (api.RespFTP f) ->
  json_Marshal (api.RespFTP f) = inl data ->
  config.Verbose (ftp.Globals c) = false
  /\ result (FTPDescribe c) = None
  /\ rest = [Write data].
Proof.
  intros Hj Htrace Hans Hdata.
  destruct (answered_run (FTPDescribe c) opts req _ rest Htrace Hans)
    as (sid & v & Hg & _ & _ & _ & Hresult & Hrest).
  cbn [render describe_render json_set Globals] in Hg, Hresult, Hrest.
  rewrite Hj in Hg, Hresult, Hrest. rewrite andb_true_r in Hg.
  by rewrite Hdata in Hresult, Hrest.
Qed.

(** X7: when the JSON encoder fails, Exec returns the encoder's error,
    writes nothing and, unlike for an error of the API, adds nothing to
    the error log: the run ends with the request. *)
Theorem encoder_failure_is_returned_unlogged (c : Command) opts req r rest err :
  json_set c = true ->
  trace c = CallServiceDetails opts :: CallAPI req :: rest ->
  api.respond (config.APIClient (Globals c)) req = inl r ->
  json_Marshal r = inr err ->
  result c = Some err /\ rest = [].
Proof.
  intros Hj Htrace Hans Hfail.
  destruct (answered_run c opts req r rest Htrace Hans)
    as (sid & v & Hg & _ & _ & Hreq & Hresult & Hrest).
  rewrite Hj, andb_true_r in Hg.
  unfold render, list_render in Hresult, Hrest.
  rewrite Hg, Hj in Hresult, Hrest.
  destruct c; cbn [json_set] in Hj; try discriminate.
  2-4: by rewrite Hfail in Hresult, Hrest.
  cbn [request_of] in Hreq. injection Hreq as <-. cbn [api.respond] in Hans.
  destruct (api.GetFTP _ _); [|discriminate]. injection Hans as <-.
  unfold describe_render in Hresult, Hrest.
  by rewrite Hfail in Hresult, Hrest.
Qed.

(** X8: a successful update ends with one success message.  For a
    versioned snippet it names the snippet as the API returned it and, as
    the previous name, the value of --name; for a dynamic snippet it names
    the snippet ID and service of the reply. *)
Theorem update_reports_success (u : snippet.UpdateCommand) opts req r rest :
  trace (SnippetUpdate u) = CallServiceDetails opts :: CallAPI req :: rest ->
  api.respond (config.APIClient (snippet.Globals u)) req = inl r ->
  result (SnippetUpdate u) = None
  /\ ((exists input v,
         req = api.ReqUpdateSnippet input /\ r = api.RespSnippet v
         /\ cmd.WasSet (snippet.dynamic u) = false
         /\ rest = [Success
              ("Updated VCL snippet '" +:+ fastly.Snippet.Name v
               +:+ "' (previously: '" +:+ snippet.name u
               +:+ "', service: " +:+ fastly.Snippet.ServiceID v
               +:+ ", version: " +:+ pretty (fastly.Snippet.ServiceVersion v)
               +:+ ", type: " +:+ fastly.Snippet.Type_ v
               +:+ ", priority: " +:+ pretty (fastly.Snippet.Priority v)
               +:+ ")")])
      \/ (exists input v,
            req = api.ReqUpdateDynamicSnippet input
            /\ r = api.RespDynamicSnippet v
            /\ cmd.WasSet (snippet.dynamic u) = true
            /\ rest = [Success
                 ("Updated dynamic VCL snippet '"
                  +:+ fastly.DynamicSnippet.ID v
                  +:+ "' (service: " +:+ fastly.DynamicSnippet.ServiceID v
                  +:+ ")")])).
Proof.
  intros Htrace Hans.
  destruct (answered_run (SnippetUpdate u) opts req r rest Htrace Hans)
    as (sid & v & _ & _ & _ & Hreq & Hresult & Hrest).
  split; [exact Hresult|].
  cbn [request_of] in Hreq. cbn [render snd] in Hrest.
  destruct (cmd.WasSet (snippet.dynamic u)) eqn:Hdyn.
  - right.
    destruct (snippet.constructDynamicInput _ _ _) as [input|];
      [|discriminate].
    injection Hreq as <-. cbn [api.respond] in Hans.
    destruct (api.UpdateDynamicSnippet _ _) as [d|]; [|discriminate].
    injection Hans as <-. by exists input, d.
  - left.
    destruct (snippet.constructInput _ _ _) as [input|] eqn:Hc;
      [|discriminate].
    injection Hreq as <-. cbn [api.respond] in Hans.
    destruct (api.UpdateSnippet _ _) as [d|]; [|discriminate].
    injection Hans as <-. exists input, d.
    apply constructInput_inl in Hc as (_ & _ & ->). done.
Qed.

End Outcomes.

(** ** More on the snippet update *)

Section Update.
Context `{Collaborators}.

(** X9: the update checks its flags only after the resolver has run (and
    possibly cloned the version): when input construction fails, the run
    consists of the resolver call and one entry in the error log, made
    with the resolved service ID and version number, and Exec returns the
    construction error. *)
Theorem update_validates_after_resolution (u : snippet.UpdateCommand) opts
    serviceID serviceVersion err :
  CallServiceDetails opts ∈ trace (SnippetUpdate u) ->
  cmd_ServiceDetails_answer opts = cmd.Resolved serviceID serviceVersion ->
  (if cmd.WasSet (snippet.dynamic u)
   then snippet.constructDynamicInput u serviceID
          (fastly.Number serviceVersion) = inr err
   else snippet.constructInput u serviceID
          (fastly.Number serviceVersion) = inr err) ->
  result (SnippetUpdate u) = Some err
  /\ trace (SnippetUpdate u)
     = [CallServiceDetails opts;
        ErrLogAddWithContext err {[
          "Service ID" := str serviceID;
          "Service Version" := int (fastly.Number serviceVersion) ]}].
Proof.
  intros Hin Hres Hfail.
  apply resolver_call_in_trace in Hin as [-> _].
  assert (request_of (SnippetUpdate u) serviceID serviceVersion = inr err)
    as Hunbuilt.
  { cbn [request_of]. destruct (cmd.WasSet (snippet.dynamic u));
      by rewrite Hfail. }
  destruct (Exec_Course (SnippetUpdate u))
    as [Hg|sid v err' Hg Hr|sid v err' Hg Hr Hb|sid v req' err' Hg Hr Hb Ha
       |sid v req' r' Hg Hr Hb Ha].
  - cbn [json_set] in Hg. by rewrite andb_false_r in Hg.
  - congruence.
  - rewrite Hres in Hr. injection Hr as <- <-.
    rewrite Hunbuilt in Hb. by injection Hb as <-.
  - rewrite Hres in Hr. injection Hr as <- <-. congruence.
  - rewrite Hres in Hr. injection Hr as <- <-. congruence.
Qed.

(** X10: which kind of update runs depends on whether --dynamic was given,
    not on its value: two commands that differ only in the value of the
    flag behave alike, so a --dynamic that was given as false still takes
    the dynamic path. *)
Theorem mode_follows_presence_of_dynamic (u : snippet.UpdateCommand)
    (d d' : cmd.OptionalBool) :
  cmd.WasSet d = cmd.WasSet d' ->
  result (SnippetUpdate (with_dynamic u d))
  = result (SnippetUpdate (with_dynamic u d'))
  /\ trace (SnippetUpdate (with_dynamic u d))
     = trace (SnippetUpdate (with_dynamic u d')).
Proof.
  intros Hset. destruct d as [w b], d' as [w' b']. cbn in Hset. subst w'.
  unfold result, trace. rewrite !Exec_course.
  assert (course (SnippetUpdate
            (with_dynamic u {| cmd.WasSet := w; cmd.Value := b |}))
          = course (SnippetUpdate
              (with_dynamic u {| cmd.WasSet := w; cmd.Value := b' |})))
    as -> by reflexivity.
  done.
Qed.

(** X11: input construction succeeds in versioned form exactly when
    --snippet-id is empty and --name is not, and in dynamic form exactly
    when --new-name was not given and --snippet-id is not empty; so no
    assignment of the flags is accepted in both forms. *)
Theorem construction_succeeds_in_one_mode (u : snippet.UpdateCommand)
    (serviceID : string) (n : Z) :
  ((exists input, snippet.constructInput u serviceID n = inl input)
   <-> snippet.snippetID u = "" /\ snippet.name u <> "")
  /\ ((exists input, snippet.constructDynamicInput u serviceID n = inl input)
      <-> cmd.WasSet (snippet.newName u) = false /\ snippet.snippetID u <> "")
  /\ ~ ((exists input, snippet.constructInput u serviceID n = inl input)
        /\ (exists input,
              snippet.constructDynamicInput u serviceID n = inl input)).
Proof.
  split; [|split].
  - split.
    + intros [input Hc]. by apply constructInput_inl in Hc as (? & ? & _).
    + intros [Hid Hname]. unfold snippet.constructInput.
      apply String.eqb_neq in Hname. rewrite Hid, Hname. by eexists.
  - split.
    + intros [input Hc].
      by apply constructDynamicInput_inl in Hc as (? & ? & _).
    + intros [Hnew Hid]. unfold snippet.constructDynamicInput.
      apply String.eqb_neq in Hid. rewrite Hnew, Hid. by eexists.
  - intros [[i Hv] [j Hd]].
    apply constructInput_inl in Hv as (Hid & _).
    by apply constructDynamicInput_inl in Hd as (_ & Hid' & _).
Qed.

(** X12: the versioned update request carries the resolved service ID and
    version number and the value of --name; each of new name, priority,
    content and type is present exactly when its flag was given, with the
    value given, a zero or empty value included. *)
Theorem versioned_request_fields (u : snippet.UpdateCommand) opts serviceID
    serviceVersion input :
  CallServiceDetails opts ∈ trace (SnippetUpdate u) ->
  cmd_ServiceDetails_answer opts = cmd.Resolved serviceID serviceVersion ->
  CallAPI (api.ReqUpdateSnippet input) ∈ trace (SnippetUpdate u) ->
  cmd.WasSet (snippet.dynamic u) = false
  /\ input = {|
       fastly.UpdateSnippetInput.ServiceID := serviceID;
       fastly.UpdateSnippetInput.ServiceVersion :=
         fastly.Number serviceVersion;
       fastly.UpdateSnippetInput.Name := snippet.name u;
       fastly.UpdateSnippetInput.NewName :=
         if cmd.WasSet (snippet.newName u)
         then Some (cmd.Value (snippet.newName u)) else None;
       fastly.UpdateSnippetInput.Priority :=
         if cmd.WasSet (snippet.priority u)
         then Some (cmd.Value (snippet.priority u)) else None;
       fastly.UpdateSnippetInput.Content :=
         if cmd.WasSet (snippet.content u)
         then Some (cmd_Content (cmd.Value (snippet.content u))) else None;
       fastly.UpdateSnippetInput.Type_ :=
         if cmd.WasSet (snippet.location u)
         then Some (cmd.Value (snippet.location u)) else None |}.
Proof.
  intros Hres Hanswer Hreq.
  apply resolver_call_in_trace in Hres as [-> _].
  apply api_call_in_trace in Hreq as (sid & v & Hanswer' & Hbuilt).
  rewrite Hanswer in Hanswer'. injection Hanswer' as <- <-.
  cbn [request_of] in Hbuilt.
  destruct (cmd.WasSet (snippet.dynamic u)).
  - by destruct (snippet.constructDynamicInput _ _ _).
  - destruct (snippet.constructInput _ _ _) as [input'|] eqn:Hc;
      [|discriminate].
    injection Hbuilt as <-. by apply constructInput_inl in Hc as (_ & _ & ->).
Qed.

(** X13: when the API turns a request down, the run ends with one entry
    in the error log and nothing is written; the read-only commands log
    the bare error, the update logs it with the resolved service ID and
    version number. *)
Theorem refused_request_is_logged (c : Command) opts req serviceID
    serviceVersion err :
  CallServiceDetails opts ∈ trace c ->
  cmd_ServiceDetails_answer opts = cmd.Resolved serviceID serviceVersion ->
  CallAPI req ∈ trace c ->
  api.respond (config.APIClient (Globals c)) req = inr err ->
  trace c
  = [CallServiceDetails opts; CallAPI req;
     if read_only c then ErrLogAdd err
     else ErrLogAddWithContext err {[
            "Service ID" := str serviceID;
            "Service Version" := int (fastly.Number serviceVersion) ]}].
Proof.
  intros Hres Hanswer Hreq Hfail.
  pose proof (resolver_call_in_trace c opts Hres) as [-> _].
  pose proof (api_call_in_trace c req Hreq) as (sid0 & v0 & Hres0 & Hb0).
  rewrite Hanswer in Hres0. injection Hres0 as <- <-. clear Hres.
  destruct (Exec_Course c)
    as [Hg|sid v err' Hg Hr|sid v err' Hg Hr Hb|sid v req' err' Hg Hr Hb Ha
       |sid v req' r' Hg Hr Hb Ha].
  - by apply elem_of_nil in Hreq.
  - congruence.
  - rewrite Hanswer in Hr. injection Hr as <- <-. congruence.
  - rewrite Hanswer in Hr. injection Hr as <- <-.
    assert (req' = req) as -> by congruence.
    assert (err' = err) as -> by congruence. by destruct c.
  - rewrite Hanswer in Hr. injection Hr as <- <-.
    assert (req' = req) as -> by congruence. congruence.
Qed.

End Update.

(** ** The flags the constructors register *)

(** X14: within each command no two flags share a name, and no two share
    a short letter. *)
Theorem flag_names_distinct (Locations : list string) (globals : config.Data)
    (data : manifest.Data) :
  Forall (fun cl =>
            NoDup (flag_name <$> registry.Calls cl)
            /\ NoDup (omap flag_short (registry.Calls cl)))
    (clauses Locations globals data).
Proof.
  unfold clauses. cbn.
  repeat (constructor; [split; by apply (bool_decide_unpack _)|]).
  constructor.
Qed.

(** A registration tracks presence if its action and destination agree. *)
Lemma tracks_presence_dec (r : registry.Call) :
  match flag_action r, flag_dst r with
  | Some f, registry.ValueOf g => f = g
  | Some _, registry.Plain _ => False
  | None, registry.ValueOf _ => flag_required r = true
  | None, registry.Plain _ => True
  end -> tracks_presence r.
Proof.
  unfold tracks_presence.
  destruct (flag_action r) as [f|], (flag_dst r) as [g|g]; intros Hok.
  - done.
  - subst g. split; intros f' [= <-]; auto.
  - split; [done|]. intros f' [=].
  - split; [done|]. intros f' [= <-]. by right.
Qed.

(** X15: every flag that has an action attached writes the value of the
    very field whose Set method the action is, and every flag that writes
    the value of an optional field has that action attached, the required
    --version flag excepted: presence and value of an optional flag
    always refer to the same field. *)
Theorem flags_track_presence (Locations : list string) (globals : config.Data)
    (data : manifest.Data) :
  Forall (fun cl => Forall tracks_presence (registry.Calls cl))
    (clauses Locations globals data).
Proof.
  unfold clauses.
  repeat first [apply List.Forall_nil | apply List.Forall_cons].
  all: cbn [snd ftp_NewDescribeCommand splunk_NewListCommand
            datadog_NewListCommand loggly_NewListCommand
            snippet_NewUpdateCommand list_registrations registry.Calls].
  all: repeat first [apply List.Forall_nil | apply List.Forall_cons].
  all: apply tracks_presence_dec; first [exact I | reflexivity].
Qed.

(** X16: every command registers --version as a required flag; each
    read-only command registers the flag --json, short -j, writing its
    json field; the snippet update registers no flag of that name and
    none that writes a json field. *)
Theorem json_flag_of_read_only_commands (Locations : list string)
    (globals : config.Data) (data : manifest.Data) :
  Forall (fun cl =>
            exists r, r ∈ registry.Calls cl
                      /\ flag_name r = cmd_FlagVersionName
                      /\ flag_required r = true)
    (clauses Locations globals data)
  /\ Forall (fun cl =>
               exists r, r ∈ registry.Calls cl
                         /\ flag_name r = cmd_FlagJSONName
                         /\ flag_short r = Some "j"%char
                         /\ flag_dst r = registry.Plain registry.json)
       [ snd (ftp_NewDescribeCommand globals data);
         snd (splunk_NewListCommand globals data);
         snd (datadog_NewListCommand globals data);
         snd (loggly_NewListCommand globals data) ]
  /\ Forall (fun r =>
               flag_name r <> cmd_FlagJSONName
               /\ flag_dst r <> registry.Plain registry.json)
       (registry.Calls (snd (snippet_NewUpdateCommand Locations globals data))).
Proof.
  split; [|split].
  - unfold clauses.
    repeat first [apply List.Forall_nil | apply List.Forall_cons].
    1-4: eexists; split;
         [eapply (list_elem_of_lookup_2 _ 3); reflexivity | done].
    eexists; split; [eapply (list_elem_of_lookup_2 _ 0); reflexivity | done].
  - repeat first [apply List.Forall_nil | apply List.Forall_cons].
    all: eexists; split;
         [eapply (list_elem_of_lookup_2 _ 0); reflexivity | done].
  - cbn [snd snippet_NewUpdateCommand registry.Calls].
    repeat first [apply List.Forall_nil | apply List.Forall_cons].
    all: split; discriminate.
Qed.

(** ** The further properties at work on the sample environment *)

Lemma only_own_requests_witness :
  CallAPI (api.ReqListSplunks {|
    fastly.ListSplunksInput.ServiceID := "SU1Z0isxPaozGVKXdv0eY";
    fastly.ListSplunksInput.ServiceVersion := 3 |})
  ∈ @trace sample.world
      (SplunkList (sample.list_splunk sample.client false false))
  /\ is_update (CallAPI (api.ReqListSplunks {|
       fastly.ListSplunksInput.ServiceID := "SU1Z0isxPaozGVKXdv0eY";
       fastly.ListSplunksInput.ServiceVersion := 3 |})) = false.
Proof.
  assert (CallAPI (api.ReqListSplunks {|
            fastly.ListSplunksInput.ServiceID := "SU1Z0isxPaozGVKXdv0eY";
            fastly.ListSplunksInput.ServiceVersion := 3 |})
          ∈ @trace sample.world
              (SplunkList (sample.list_splunk sample.client false false)))
    as Hin by (apply (list_elem_of_lookup_2 _ 1); reflexivity).
  split; [exact Hin|].
  apply (@only_own_requests sample.world _ _ Hin). reflexivity.
Defined.

Lemma request_names_resolved_service_witness :
  CallServiceDetails (@opts_of (SnippetUpdate sample.from_file))
  ∈ @trace sample.world (SnippetUpdate sample.from_file)
  /\ service_of (api.ReqUpdateSnippet {|
       fastly.UpdateSnippetInput.ServiceID := "SU1Z0isxPaozGVKXdv0eY";
       fastly.UpdateSnippetInput.ServiceVersion := 3;
       fastly.UpdateSnippetInput.Name := "pass";
       fastly.UpdateSnippetInput.NewName := None;
       fastly.UpdateSnippetInput.Priority := None;
       fastly.UpdateSnippetInput.Content := Some "snippet.vcl";
       fastly.UpdateSnippetInput.Type_ := None |})
     = "SU1Z0isxPaozGVKXdv0eY".
Proof.
  assert (CallServiceDetails (@opts_of (SnippetUpdate sample.from_file))
          ∈ @trace sample.world (SnippetUpdate sample.from_file)) as Hres
    by (apply (list_elem_of_lookup_2 _ 0); reflexivity).
  split; [exact Hres|].
  apply (@request_names_resolved_service sample.world
           (SnippetUpdate sample.from_file) _ _ _ sample.version Hres).
  - apply (list_elem_of_lookup_2 _ 1). reflexivity.
  - reflexivity.
Defined.

Lemma resolver_sees_flags_unchanged_witness :
  CallServiceDetails (@opts_of (SnippetUpdate sample.from_file))
  ∈ @trace sample.world (SnippetUpdate sample.from_file)
  /\ cmd.ServiceVersionFlag (@opts_of (SnippetUpdate sample.from_file))
     = sample.flag "3".
Proof.
  assert (CallServiceDetails (@opts_of (SnippetUpdate sample.from_file))
          ∈ @trace sample.world (SnippetUpdate sample.from_file)) as Hres
    by (apply (list_elem_of_lookup_2 _ 0); reflexivity).
  split; [exact Hres|].
  apply (@resolver_sees_flags_unchanged sample.world _ _ Hres).
Defined.

Lemma describe_json_output_witness :
  ftp.json (sample.describe sample.client false true) = true
  /\ @result sample.world
       (FTPDescribe (sample.describe sample.client false true)) = None
  /\ drop 2 (@trace sample.world
               (FTPDescribe (sample.describe sample.client false true)))
     = [Write "[]"].
Proof.
  split; [reflexivity|].
  apply (@describe_json_output sample.world
           (sample.describe sample.client false true)
           (@opts_of (FTPDescribe (sample.describe sample.client false true)))
           (api.ReqGetFTP {|
              fastly.GetFTPInput.ServiceID := "SU1Z0isxPaozGVKXdv0eY";
              fastly.GetFTPInput.ServiceVersion := 3;
              fastly.GetFTPInput.Name := "logs" |})
           sample.endpoint _ "[]"); reflexivity.
Defined.

Lemma encoder_failure_witness :
  json_set (DatadogList (sample.list_datadog sample.client false true)) = true
  /\ @result fixture.mute
       (DatadogList (sample.list_datadog sample.client false true))
     = Some (CollaboratorError "json: unsupported value")
  /\ drop 2 (@trace fixture.mute
               (DatadogList (sample.list_datadog sample.client false true)))
     = [].
Proof.
  split; [reflexivity|].
  apply (@encoder_failure_is_returned_unlogged fixture.mute
           (DatadogList (sample.list_datadog sample.client false true))
           (@opts_of (DatadogList (sample.list_datadog sample.client false true)))
           (api.ReqListDatadog {|
              fastly.ListDatadogInput.ServiceID := "SU1Z0isxPaozGVKXdv0eY";
              fastly.ListDatadogInput.ServiceVersion := 3 |})
           (api.RespDatadogs [])); reflexivity.
Defined.

Lemma update_reports_success_witness :
  @trace sample.world (SnippetUpdate fixture.rename)
  = [CallServiceDetails (@opts_of (SnippetUpdate fixture.rename));
     CallAPI (api.ReqUpdateSnippet {|
       fastly.UpdateSnippetInput.ServiceID := "SU1Z0isxPaozGVKXdv0eY";
       fastly.UpdateSnippetInput.ServiceVersion := 3;
       fastly.UpdateSnippetInput.Name := "pass";
       fastly.UpdateSnippetInput.NewName := Some "skip";
       fastly.UpdateSnippetInput.Priority := Some 0;
       fastly.UpdateSnippetInput.Content := None;
       fastly.UpdateSnippetInput.Type_ := None |});
     Success "Updated VCL snippet 'skip' (previously: 'pass', service: SU1Z0isxPaozGVKXdv0eY, version: 3, type: recv, priority: 100)"]
  /\ @result sample.world (SnippetUpdate fixture.rename) = None.
Proof.
  split; [reflexivity|].
  eapply (@update_reports_success sample.world fixture.rename); reflexivity.
Defined.

Lemma update_validates_after_resolution_witness :
  CallServiceDetails (@opts_of (SnippetUpdate sample.with_snippet_id))
  ∈ @trace sample.world (SnippetUpdate sample.with_snippet_id)
  /\ length (@trace sample.world (SnippetUpdate sample.with_snippet_id))
     = 2%nat.
Proof.
  assert (CallServiceDetails (@opts_of (SnippetUpdate sample.with_snippet_id))
          ∈ @trace sample.world (SnippetUpdate sample.with_snippet_id))
    as Hres by (apply (list_elem_of_lookup_2 _ 0); reflexivity).
  split; [exact Hres|].
  destruct (@update_validates_after_resolution sample.world
              sample.with_snippet_id _ "SU1Z0isxPaozGVKXdv0eY" sample.version
              (errorString "error parsing arguments: --snippet-id is not supported when updating a versioned VCL snippet")
              Hres eq_refl eq_refl) as [_ ->].
  reflexivity.
Defined.

Lemma mode_follows_presence_of_dynamic_witness :
  cmd.WasSet (sample.flag false) = cmd.WasSet (sample.flag true)
  /\ @trace sample.world
       (SnippetUpdate (with_dynamic sample.dynamic_by_id (sample.flag false)))
     = @trace sample.world
         (SnippetUpdate (with_dynamic sample.dynamic_by_id (sample.flag true))).
Proof.
  split; [reflexivity|].
  apply (@mode_follows_presence_of_dynamic sample.world
           sample.dynamic_by_id (sample.flag false) (sample.flag true)
           eq_refl).
Defined.

Lemma versioned_request_fields_witness :
  CallServiceDetails (@opts_of (SnippetUpdate fixture.rename))
  ∈ @trace sample.world (SnippetUpdate fixture.rename)
  /\ cmd.WasSet (snippet.dynamic fixture.rename) = false.
Proof.
  assert (CallServiceDetails (@opts_of (SnippetUpdate fixture.rename))
          ∈ @trace sample.world (SnippetUpdate fixture.rename)) as Hres
    by (apply (list_elem_of_lookup_2 _ 0); reflexivity).
  split; [exact Hres|].
  apply (@versioned_request_fields sample.world fixture.rename _
           "SU1Z0isxPaozGVKXdv0eY" sample.version
           {| fastly.UpdateSnippetInput.ServiceID := "SU1Z0isxPaozGVKXdv0eY";
              fastly.UpdateSnippetInput.ServiceVersion := 3;
              fastly.UpdateSnippetInput.Name := "pass";
              fastly.UpdateSnippetInput.NewName := Some "skip";
              fastly.UpdateSnippetInput.Priority := Some 0;
              fastly.UpdateSnippetInput.Content := None;
              fastly.UpdateSnippetInput.Type_ := None |} Hres eq_refl).
  apply (list_elem_of_lookup_2 _ 1). reflexivity.
Defined.

Lemma refused_request_is_logged_witness :
  CallServiceDetails
    (@opts_of (FTPDescribe (sample.describe sample.down false false)))
  ∈ @trace sample.world (FTPDescribe (sample.describe sample.down false false))
  /\ @trace sample.world (FTPDescribe (sample.describe sample.down false false))
     = [CallServiceDetails
          (@opts_of (FTPDescribe (sample.describe sample.down false false)));
        CallAPI (api.ReqGetFTP {|
          fastly.GetFTPInput.ServiceID := "SU1Z0isxPaozGVKXdv0eY";
          fastly.GetFTPInput.ServiceVersion := 3;
          fastly.GetFTPInput.Name := "logs" |});
        ErrLogAdd (CollaboratorError "503")].
Proof.
  assert (CallServiceDetails
            (@opts_of (FTPDescribe (sample.describe sample.down false false)))
          ∈ @trace sample.world
              (FTPDescribe (sample.describe sample.down false false)))
    as Hres by (apply (list_elem_of_lookup_2 _ 0); reflexivity).
  split; [exact Hres|].
  apply (@refused_request_is_logged sample.world
           (FTPDescribe (sample.describe sample.down false false)) _ _
           "SU1Z0isxPaozGVKXdv0eY" sample.version
           (CollaboratorError "503") Hres eq_refl).
  - apply (list_elem_of_lookup_2 _ 1). reflexivity.
  - reflexivity.
Defined.
